(** * Student score visualizer: column detection and per-student aggregation

    A shallow embedding of [validate_data] and
    [process_data_and_create_charts] of [app.py], of the file names of
    the downloads and of the top level of the script, with the properties
    of the column pairing, the null-skipping extraction, the summary
    statistics and the order of the emitted charts.

    Scores are Python floats, that is IEEE 754 binary64 numbers; they are
    modelled by Rocq's primitive floats, whose operations are the same
    binary64 operations.  What belongs to libraries is kept apart: a text
    cell carries what [float()] makes of it, and the drawing of a chart by
    matplotlib is an operation of a [Renderer], which can raise. *)

From Stdlib Require Import String Ascii Bool Arith ZArith Lia.
From Stdlib Require Import Floats QArith Field.
From Stdlib Require Import List.
Import ListNotations.

Local Open Scope string_scope.
Local Open Scope list_scope.
Local Open Scope nat_scope.

Set Implicit Arguments.

(* ------------------------------------------------------------------ *)
(** ** Python built-ins used by the script *)
(* ------------------------------------------------------------------ *)

Module Py.

(** The label of a column.  [read_csv] yields texts; [read_excel] also
    yields numbers and dates when the header cells hold them.  A label
    that is not a [str] is given by its printed form. *)
Inductive label : Type :=
| Text (s : string)
| NotText (shown : string).

(** [==] on labels. *)
Definition label_eqb (a b : label) : bool :=
  match a, b with
  | Text s, Text t => String.eqb s t
  | NotText s, NotText t => String.eqb s t
  | _, _ => false
  end.

(** Exceptions the modelled code can raise.  [AttributeError] names the
    attribute that the object does not have; [OtherError] is any other
    exception, given by the name of its type and its message. *)
Inductive exn : Type :=
| KeyError (key : label)
| ValueError (message : string)
| AttributeError (attribute : string)
| OtherError (type_name message : string).

(** A computation that returns or raises. *)
Inductive result (A : Type) : Type :=
| Ok (a : A)
| Raise (e : exn).
Arguments Ok {A} a.
Arguments Raise {A} e.

Definition bind {A B} (m : result A) (k : A -> result B) : result B :=
  match m with
  | Ok a => k a
  | Raise e => Raise e
  end.

(** A [for] loop whose body can raise: the state is threaded through the
    items in order and the first exception ends the loop. *)
Fixpoint for_each {S X} (body : S -> X -> result S) (items : list X) (s : S)
  : result S :=
  match items with
  | [] => Ok s
  | x :: rest => bind (body s x) (for_each body rest)
  end.

(** [range(start, stop, step)] for a positive step. *)
Fixpoint range_from (fuel i stop step : nat) : list nat :=
  match fuel with
  | O => []
  | S fuel' =>
      if i <? stop then i :: range_from fuel' (i + step) stop step else []
  end.

Definition range (start stop step : nat) : list nat :=
  range_from stop start stop step.

(** [c.lower()] on one character (ASCII letters). *)
Definition lower_ascii (c : ascii) : ascii :=
  let n := nat_of_ascii c in
  if (65 <=? n) && (n <=? 90) then ascii_of_nat (n + 32) else c.

(** [s.lower()]. *)
Fixpoint lower (s : string) : string :=
  match s with
  | EmptyString => EmptyString
  | String c s' => String (lower_ascii c) (lower s')
  end.

(** [term in s] on strings: [term] occurs as a substring of [s]. *)
Fixpoint contains (term s : string) : bool :=
  if String.prefix term s then true
  else match s with
       | EmptyString => false
       | String _ s' => contains term s'
       end.

(** [any(...)]. *)
Definition any {X} (f : X -> bool) (l : list X) : bool := existsb f l.

(** The arithmetic the statistics use.  The script runs it on binary64
    floats; the same expressions can be read over the rationals. *)
Class Arith (R : Type) : Type := {
  zero : R;
  add : R -> R -> R;
  mul : R -> R -> R;
  div : R -> R -> R;
  of_nat : nat -> R        (* an [int] operand promoted to the number type *)
}.

(** [sum(l)]: the items added left to right, starting from 0.  (CPython
    3.12 and later compensate the rounding of the partial sums of floats;
    the script calls [sum] twice on the same list and gets the same value
    twice either way.) *)
Definition sum {R} `{Arith R} (l : list R) : R := fold_left add l zero.

(** An [int] converted to binary64, rounded to nearest even. *)
Definition float_of_nat (n : nat) : float :=
  SF2Prim (binary_normalize prec emax (Z.of_nat n) 0%Z false).

#[export] Instance float_arith : Arith float := {
  zero := 0%float;
  add := PrimFloat.add;
  mul := PrimFloat.mul;
  div := PrimFloat.div;
  of_nat := float_of_nat
}.

#[export] Instance Q_arith : Arith Q := {
  zero := 0%Q;
  add := Qplus;
  mul := Qmult;
  div := Qdiv;
  of_nat := fun n => inject_Z (Z.of_nat n)
}.

End Py.
Import Py.

Notation "x <- m ;; k" := (bind m (fun x => k))
  (at level 61, m at next level, right associativity).

(* ------------------------------------------------------------------ *)
(** ** Tables *)
(* ------------------------------------------------------------------ *)

(** A cell of the parsed spreadsheet.  [pandas] yields a missing value, a
    number or a text.  Python's [float()] is not part of the script: a
    text cell carries what [float()] makes of it, the number it returns or
    the message of the [ValueError] it raises. *)
Inductive cell : Type :=
| NA
| Num (x : float)
| Str (s : string) (as_float : string + float).

(** [pd.notna(c)]: [None] and NaN are missing. *)
Definition notna (c : cell) : bool :=
  match c with
  | NA => false
  | Num x => negb (PrimFloat.is_nan x)
  | Str _ _ => true
  end.

(** [float(c)].  The script calls it on cells that passed [pd.notna] only. *)
Definition float_of_cell (c : cell) : result float :=
  match c with
  | NA => Ok PrimFloat.nan
  | Num x => Ok x
  | Str _ (inr x) => Ok x
  | Str _ (inl message) => Raise (ValueError message)
  end.

(** Equality of cells as dictionary keys: texts with the same characters,
    numbers that [==] holds of (a NaN equals no number), the missing value
    [None]. *)
Definition cell_eqb (a b : cell) : bool :=
  match a, b with
  | NA, NA => true
  | Num x, Num y => PrimFloat.eqb x y
  | Str s _, Str t _ => String.eqb s t
  | _, _ => false
  end.

(** A [DataFrame]: the column labels and the rows, each row holding one
    cell per column.  [read_csv] and [read_excel] make the labels distinct. *)
Record DataFrame : Type := {
  columns : list label;
  rows : list (list cell)
}.

(** [df.empty]: some axis has length 0. *)
Definition empty (df : DataFrame) : bool :=
  match rows df, columns df with
  | [], _ => true
  | _, [] => true
  | _, _ => false
  end.

(** [row[col]] for a row of a frame with labels [cols]. *)
Fixpoint getitem (cols : list label) (row : list cell) (col : label)
  : result cell :=
  match cols, row with
  | c :: cols', v :: row' =>
      if label_eqb c col then Ok v else getitem cols' row' col
  | _, _ => Raise (KeyError col)
  end.

(* ------------------------------------------------------------------ *)
(** ** validate_data *)
(* ------------------------------------------------------------------ *)

(** The dictionary [validate_data] returns on success. *)
Record data_format : Type := {
  format : string;
  student_col : label;
  subject_percentage_pairs : list (label * label * bool)
}.

Definition pct_terms : list string := ["percentage"; "percent"; "%"].

(** Line 75 on a header that is a text. *)
Definition is_percentage_col (percentage_col : string) : bool :=
  any (fun term => contains term (lower percentage_col)) pct_terms.

(** Line 75 on any header: only a [str] has the method [lower]. *)
Definition percentage_flag (percentage_col : label) : result bool :=
  match percentage_col with
  | Text s => Ok (is_percentage_col s)
  | NotText _ => Raise (AttributeError "lower")
  end.

Definition msg_empty : string := "The uploaded file contains no data.".
Definition msg_columns : string :=
  "The file should have at least 3 columns: student name, subject, and percentage.".
Definition msg_undetermined : string :=
  "Could not automatically determine the data structure. Please select the appropriate columns below.".

(** Lines 69-77: the body of the loop, on the list [potential_pairs]. *)
Definition pair_body (cols : list label)
    (pairs : list (label * label * bool)) (i : nat)
  : result (list (label * label * bool)) :=
  if i + 1 <? length cols then
    let subject_col := nth i cols (Text "") in
    let percentage_col := nth (i + 1) cols (Text "") in
    is_percentage_col <- percentage_flag percentage_col ;;
    Ok (pairs ++ [(subject_col, percentage_col, is_percentage_col)])
  else Ok pairs.

(** The loop over [range(1, len(df.columns), 2)]. *)
Definition potential_pairs (cols : list label)
  : result (list (label * label * bool)) :=
  for_each (pair_body cols) (range 1 (length cols) 2) [].

(** [validate_data(df)] returns the pair [(errors, data_format or None)],
    or raises. *)
Definition validate_data (df : DataFrame)
  : result (list string * option data_format) :=
  if empty df then Ok ([msg_empty], None)
  else if length (columns df) <? 3 then Ok ([msg_columns], None)
  else
    pairs <- potential_pairs (columns df) ;;
    match pairs with
    | _ :: _ =>
        Ok ([], Some {| format := "paired";
                        student_col := nth 0 (columns df) (Text "");
                        subject_percentage_pairs := pairs |})
    | [] => Ok ([msg_undetermined], None)
    end.

(* ------------------------------------------------------------------ *)
(** ** process_data_and_create_charts *)
(* ------------------------------------------------------------------ *)

(** The summary dictionary of one student.  [total_possible] and
    [num_subjects] are Python integers. *)
Record summary (R : Type) : Type := {
  average : R;
  total_achieved : R;
  total_possible : nat;
  total_percentage : R;
  num_subjects : nat
}.

(** Lines 117-130: the statistics of one row's scores. *)
Definition summarize {R} `{Arith R} (subjects : list label) (scores : list R)
  : summary R :=
  let avg_score :=
    match scores with
    | [] => zero
    | _ :: _ => div (sum scores) (of_nat (length scores))
    end in
  let total_possible := 100 * length scores in
  let total_achieved := sum scores in
  let total_percentage :=
    if 0 <? total_possible
    then mul (div total_achieved (of_nat total_possible)) (of_nat 100)
    else zero in
  {| average := avg_score;
     total_achieved := total_achieved;
     total_possible := total_possible;
     total_percentage := total_percentage;
     num_subjects := length subjects |}.

(** One entry of [charts].  The figure and its PNG buffer are rendering
    artefacts; the entry keeps the two lists the figure is drawn from. *)
Record chart : Type := {
  student : cell;
  subjects : list label;
  scores : list float;
  chart_summary : summary float
}.

(** What matplotlib and Streamlit do with the charts; each operation
    returns or raises (matplotlib raises, for one, on a name or a header
    that it cannot lay out as mathematical text).
    - [draw]: lines 133-199, the figure of one chart and its PNG buffer;
    - [pdf_link]: [get_chart_download_link], the PDF of all figures;
    - [display]: lines 364-417, the summary table and the figures on the
      page, apart from the file names. *)
Record Renderer : Type := {
  draw : chart -> result unit;
  pdf_link : list chart -> result unit;
  display : list chart -> result unit
}.

(** [student_summaries]: a dictionary keyed by the student's name, in
    insertion order. *)
Definition summaries : Type := list (cell * summary float).

(** [d[k] = v]: an existing key keeps its place and gets the new value, a
    new key is added at the end. *)
Fixpoint dict_set (d : summaries) (k : cell) (v : summary float) : summaries :=
  match d with
  | [] => [(k, v)]
  | (k', v') :: d' =>
      if cell_eqb k' k then (k', v) :: d' else (k', v') :: dict_set d' k v
  end.

Fixpoint dict_get (d : summaries) (k : cell) : option (summary float) :=
  match d with
  | [] => None
  | (k', v') :: d' => if cell_eqb k' k then Some v' else dict_get d' k
  end.

(** Lines 107-111: one pair of the inner loop, on the running lists. *)
Definition extract_pair (cols : list label) (row : list cell)
    (acc : list label * list float) (pair : label * label * bool)
  : result (list label * list float) :=
  let '(subject_col, percentage_col, _) := pair in
  s <- getitem cols row subject_col ;;
  if notna s then
    p <- getitem cols row percentage_col ;;
    if notna p then
      x <- float_of_cell p ;;
      Ok (fst acc ++ [subject_col], snd acc ++ [x])
    else Ok acc
  else Ok acc.

(** Lines 102-206: the body of the loop over the rows, on the pair
    [(charts, student_summaries)].  The summary the chart refers to (line
    204) is the dictionary stored under the name at line 124 of the same
    iteration; nothing changes that dictionary afterwards.  The figure is
    drawn before the chart is appended. *)
Definition process_row (R : Renderer) (cols : list label) (fmt : data_format)
    (state : list chart * summaries) (row : list cell)
  : result (list chart * summaries) :=
  let '(charts, student_summaries) := state in
  student_name <- getitem cols row (student_col fmt) ;;
  lists <- for_each (extract_pair cols row) (subject_percentage_pairs fmt) ([], []) ;;
  let '(subjects, scores) := lists in
  match subjects with
  | [] => Ok (charts, student_summaries)
  | _ :: _ =>
      let s := summarize subjects scores in
      let c := {| student := student_name;
                  subjects := subjects;
                  scores := scores;
                  chart_summary := s |} in
      _ <- draw R c ;;
      Ok (charts ++ [c], dict_set student_summaries student_name s)
  end.

Definition process_data_and_create_charts (R : Renderer) (df : DataFrame)
    (fmt : data_format)
  : result (list chart * summaries) :=
  if String.eqb (format fmt) "paired"
  then for_each (process_row R (columns df) fmt) (rows df) ([], [])
  else Ok ([], []).

(* ------------------------------------------------------------------ *)
(** ** The names of the downloads *)
(* ------------------------------------------------------------------ *)

(** [s.replace(' ', '_')]. *)
Fixpoint replace_spaces (s : string) : string :=
  match s with
  | EmptyString => EmptyString
  | String c s' =>
      String (if Ascii.eqb c " " then "_"%char else c) (replace_spaces s')
  end.

(** Lines 245, 262 and 413: the file name of a student's chart.  Only a
    [str] has the method [replace]; on any other name the call raises
    [AttributeError], here [None]. *)
Definition chart_file_name (student_name : cell) (extension : string)
  : option string :=
  match student_name with
  | Str s _ => Some (replace_spaces s ++ "_chart." ++ extension)%string
  | _ => None
  end.

(** Lines 256-269 of [get_charts_zip_download_link]: the names of the
    entries written to the archive, one [writestr] per chart, in order;
    [None] when a name raises. *)
Fixpoint zip_entry_names (charts : list chart) : option (list string) :=
  match charts with
  | [] => Some []
  | c :: rest =>
      match chart_file_name (student c) "png" with
      | Some name => option_map (cons name) (zip_entry_names rest)
      | None => None
      end
  end.

(* ------------------------------------------------------------------ *)
(** ** The top level of the script *)
(* ------------------------------------------------------------------ *)

(** What one run shows after the preview of the file.  [Failed e] is the
    one message of the handler of line 421, made of a fixed prefix and of
    [str(e)]. *)
Inductive outcome : Type :=
| Generated (charts : list chart) (student_summaries : summaries)
| NoCharts
| NoFormat
| Failed (e : exn).

(** Lines 354-417: the links and the page for a non-empty list of charts. *)
Definition publish (R : Renderer) (charts : list chart)
    (student_summaries : summaries) : outcome :=
  match pdf_link R charts with
  | Raise e => Failed e
  | Ok _ =>
      match zip_entry_names charts with
      | None => Failed (AttributeError "replace")
      | Some _ =>
          match display R charts with
          | Raise e => Failed e
          | Ok _ => Generated charts student_summaries
          end
      end
  end.

(** Lines 293-423.  [manual] is what the column-selection widgets of lines
    302-345 do when the detection fails: they raise, or yield a mapping,
    or yield none.  The first component is the list of issues shown as
    warnings. *)
Definition main (R : Renderer) (df : DataFrame)
    (manual : result (option data_format))
  : list string * outcome :=
  match validate_data df with
  | Raise e => ([], Failed e)
  | Ok (errors, detected) =>
      let chosen :=
        match errors, detected with
        | _ :: _, None => manual
        | _, _ => Ok detected
        end in
      (errors,
       match chosen with
       | Raise e => Failed e
       | Ok None => NoFormat
       | Ok (Some fmt) =>
           match process_data_and_create_charts R df fmt with
           | Ok (charts, student_summaries) =>
               match charts with
               | [] => NoCharts
               | _ :: _ => publish R charts student_summaries
               end
           | Raise e => Failed e
           end
       end)
  end.

(* ------------------------------------------------------------------ *)
(** ** Notions used in the statements *)
(* ------------------------------------------------------------------ *)

(** The label is a [str]. *)
Definition is_text (l : label) : bool :=
  match l with
  | Text _ => true
  | NotText _ => false
  end.

(** The flag of a header, [false] for a header that is not a text (on
    which line 75 raises). *)
Definition header_flag (percentage_col : label) : bool :=
  match percentage_col with
  | Text s => is_percentage_col s
  | NotText _ => false
  end.

(** The headers line 75 is run on: the second of every two trailing
    columns. *)
Fixpoint percentage_headers (trailing : list label) : list label :=
  match trailing with
  | _ :: percentage_col :: rest => percentage_col :: percentage_headers rest
  | _ => []
  end.

(** The pairing of lines 68-77 read off the list of trailing columns. *)
Fixpoint pair_up (trailing : list label) : list (label * label * bool) :=
  match trailing with
  | subject_col :: percentage_col :: rest =>
      (subject_col, percentage_col, header_flag percentage_col)
        :: pair_up rest
  | _ => []
  end.

(** The pair built from columns [2k+1] and [2k+2]. *)
Definition pair_at (cols : list label) (k : nat) : label * label * bool :=
  (nth (1 + 2 * k) cols (Text ""), nth (2 + 2 * k) cols (Text ""),
   header_flag (nth (2 + 2 * k) cols (Text ""))).

(** A mapping with format "paired". *)
Definition paired (name : label) (pairs : list (label * label * bool))
  : data_format :=
  {| format := "paired"; student_col := name; subject_percentage_pairs := pairs |}.

(** The mapping names columns of the table. *)
Definition valid_mapping (cols : list label) (fmt : data_format) : Prop :=
  In (student_col fmt) cols
  /\ Forall (fun pair => In (fst (fst pair)) cols /\ In (snd (fst pair)) cols)
       (subject_percentage_pairs fmt).

(** The columns a mapping names, in order. *)
Definition mapped_columns (fmt : data_format) : list label :=
  student_col fmt
    :: flat_map (fun pair => [fst (fst pair); snd (fst pair)])
         (subject_percentage_pairs fmt).

(** Both cells of a pair are present in the row and neither is missing. *)
Definition both_present (cols : list label) (row : list cell)
    (pair : label * label * bool) : bool :=
  match getitem cols row (fst (fst pair)) with
  | Ok s =>
      notna s && match getitem cols row (snd (fst pair)) with
                 | Ok p => notna p
                 | Raise _ => false
                 end
  | Raise _ => false
  end.

(** The cell of a row under a column is there and missing. *)
Definition is_missing (cols : list label) (row : list cell) (col : label)
  : bool :=
  match getitem cols row col with
  | Ok c => negb (notna c)
  | Raise _ => false
  end.

(** The loop passes the percentage cell of the pair to [float()], which
    rejects it: both cells are present and the percentage cell is a text
    that is not a number. *)
Definition rejects (cols : list label) (row : list cell)
    (pair : label * label * bool) : bool :=
  both_present cols row pair
  && match getitem cols row (snd (fst pair)) with
     | Ok p => match float_of_cell p with
               | Raise _ => true
               | Ok _ => false
               end
     | Raise _ => false
     end.

(** A cell of the table that [float()] rejects with [e] in the loop. *)
Definition rejected_cell (df : DataFrame) (fmt : data_format) (e : exn) : Prop :=
  exists row pair p,
    In row (rows df)
    /\ In pair (subject_percentage_pairs fmt)
    /\ both_present (columns df) row pair = true
    /\ getitem (columns df) row (snd (fst pair)) = Ok p
    /\ float_of_cell p = Raise e.

(** What one row contributes to [charts] before its figure is drawn: the
    body of the loop over the rows without the two accumulators and the
    drawing. *)
Definition row_chart (cols : list label) (fmt : data_format) (row : list cell)
  : result (option chart) :=
  student_name <- getitem cols row (student_col fmt) ;;
  lists <- for_each (extract_pair cols row) (subject_percentage_pairs fmt) ([], []) ;;
  Ok match fst lists with
     | [] => None
     | _ :: _ =>
         Some {| student := student_name;
                 subjects := fst lists;
                 scores := snd lists;
                 chart_summary := summarize (fst lists) (snd lists) |}
     end.

(** The same with the drawing of the figure. *)
Definition row_drawn (R : Renderer) (cols : list label) (fmt : data_format)
    (row : list cell) : result (option chart) :=
  o <- row_chart cols fmt row ;;
  match o with
  | None => Ok None
  | Some c => _ <- draw R c ;; Ok (Some c)
  end.

(** Lines 124 and 201: a row's chart, if any, goes to the end of [charts]
    and its summary under the student's name in [student_summaries]. *)
Definition add_chart (state : list chart * summaries) (o : option chart)
  : list chart * summaries :=
  match o with
  | None => state
  | Some c =>
      (fst state ++ [c], dict_set (snd state) (student c) (chart_summary c))
  end.

(** The charts among the rows' contributions, in order. *)
Definition somes (outs : list (option chart)) : list chart :=
  flat_map (fun o => match o with Some c => [c] | None => [] end) outs.

(** The table made of one row of a table with labels [cols]. *)
Definition alone (cols : list label) (row : list cell) : DataFrame :=
  {| columns := cols; rows := [row] |}.

(** The charts a run returns, none when it raises. *)
Definition charts_of (r : result (list chart * summaries)) : list chart :=
  match r with
  | Ok (charts, _) => charts
  | Raise _ => []
  end.

(** The last chart of a student in [charts]. *)
Definition last_chart (charts : list chart) (name : cell) : option chart :=
  find (fun c => cell_eqb (student c) name) (rev charts).

(** The entries of the dictionary under a name. *)
Definition entries_of (d : summaries) (name : cell) : summaries :=
  filter (fun e => cell_eqb (fst e) name) d.

(** No cell of the list equals, as a dictionary key, a later one. *)
Fixpoint distinct_cells (ks : list cell) : Prop :=
  match ks with
  | [] => True
  | k :: ks' => Forall (fun k' => cell_eqb k k' = false) ks' /\ distinct_cells ks'
  end.

(** No two entries of the dictionary have equal keys. *)
Definition distinct_keys (d : summaries) : Prop := distinct_cells (map fst d).

(** No two charts have equal student names. *)
Definition distinct_students (charts : list chart) : Prop :=
  distinct_cells (map student charts).

(** The rational number a finite binary64 number stands for (0 for the
    infinities and NaN). *)
Definition Q_of_float (x : float) : Q :=
  match Prim2SF x with
  | S754_finite s m e =>
      ((if s then (-1) else 1) * inject_Z (Zpos m) * Qpower 2 e)%Q
  | _ => 0%Q
  end.

(** Two binary64 numbers that [==] holds of: two zeros, the same infinity
    or the same finite number. *)
Definition same_number (a b : spec_float) : Prop :=
  match a, b with
  | S754_zero _, S754_zero _ => True
  | S754_infinity s, S754_infinity s' => s = s'
  | S754_finite s m e, S754_finite s' m' e' => s = s' /\ m = m' /\ e = e'
  | _, _ => False
  end.

(* ------------------------------------------------------------------ *)
(** ** The bars of a chart *)
(* ------------------------------------------------------------------ *)

(** Lines 136-141: the labels and the heights of the bars; with
    [show_average_bar] the average is one more bar. *)
Definition display_subjects (show_average_bar : bool) (subjects : list label)
  : list label :=
  if show_average_bar then subjects ++ [Text "Average"] else subjects.

Definition display_scores (show_average_bar : bool) (scores : list float)
    (avg_score : float) : list float :=
  if show_average_bar then scores ++ [avg_score] else scores.

(** Line 151: the list of colours passed to [ax.bar]. *)
Definition bar_colors (show_average_bar : bool) (subjects : list label)
  : list string :=
  repeat "#7792E3" (length subjects)
  ++ repeat "#004080" (if show_average_bar then 1 else 0).

(** The three lists [ax.bar] is called with. *)
Record bar_chart : Type := {
  bar_labels : list string;
  bar_heights : list float;
  bar_color : list string
}.

(** Lines 143-151 for one chart whose figure is drawn.  [wrap] stands for
    ['\n'.join(textwrap.wrap(subject, width=15))], which belongs to the
    standard library. *)
Definition bars (wrap : label -> string) (show_average_bar : bool) (c : chart)
  : bar_chart :=
  {| bar_labels := map wrap (display_subjects show_average_bar (subjects c));
     bar_heights :=
       display_scores show_average_bar (scores c) (average (chart_summary c));
     bar_color := bar_colors show_average_bar (subjects c) |}.

(* ------------------------------------------------------------------ *)
(** ** Example tables *)
(* ------------------------------------------------------------------ *)

(** [wrap] on the labels of the examples: a word of at most 15 characters
    is left as it is. *)
Definition short_label (l : label) : string :=
  match l with
  | Text s => s
  | NotText shown => shown
  end.

(** A text cell made of letters: [float()] rejects it with this message. *)
Definition word (s : string) : cell :=
  Str s (inl ("could not convert string to float: '" ++ s ++ "'")%string).

(** The renderer of the examples draws every chart, as matplotlib does
    for names and headers that are plain words. *)
Definition quiet : Renderer :=
  {| draw := fun _ => Ok tt;
     pdf_link := fun _ => Ok tt;
     display := fun _ => Ok tt |}.

(** A renderer that cannot draw the chart of the student called [name],
    as matplotlib cannot for a name like [$x^$]. *)
Definition stumbling (name : string) (e : exn) : Renderer :=
  {| draw := fun c => if cell_eqb (student c) (word name) then Raise e else Ok tt;
     pdf_link := fun _ => Ok tt;
     display := fun _ => Ok tt |}.

(** Scenario A: Alice has no biology result. *)
Definition scenario_A_columns : list label :=
  [Text "Student"; Text "Chem"; Text "Pct"; Text "Bio"; Text "Pct2"].

Definition alice : list cell := [word "Alice"; Num 8; Num 80; NA; NA].

Definition bob : list cell := [word "Bob"; Num 7; Num 70; Num 9; Num 90].

Definition scenario_A : DataFrame :=
  {| columns := scenario_A_columns; rows := [alice; bob] |}.

Definition scenario_A_format : data_format :=
  paired (Text "Student")
    [(Text "Chem", Text "Pct", false); (Text "Bio", Text "Pct2", false)].

(** A row in which every pair has a missing cell: a subject without its
    percentage and a percentage without its subject. *)
Definition carl : list cell := [word "Carl"; Num 5; NA; NA; Num 30].

(** Tables with one subject. *)
Definition one_subject_columns : list label :=
  [Text "Student"; Text "Maths"; Text "Percentage"].

Definition one_subject_format : data_format :=
  paired (Text "Student") [(Text "Maths", Text "Percentage", true)].

(** The chart of a student with one score whose percentage of the total
    is the score itself. *)
Definition chart_of_one (name : string) (score : float) : chart :=
  {| student := word name;
     subjects := [Text "Maths"];
     scores := [score];
     chart_summary :=
       {| average := score;
          total_achieved := score;
          total_possible := 100;
          total_percentage := score;
          num_subjects := 1 |} |}.

(** One student, 7 percent. *)
Definition seven_percent : DataFrame :=
  {| columns := one_subject_columns; rows := [[word "Ann"; Num 1; Num 7]] |}.

(** The chart of that table: the average is 7 and the total percentage
    the next binary64 number after 7. *)
Definition seven_percent_chart : chart :=
  {| student := word "Ann";
     subjects := [Text "Maths"];
     scores := [7%float];
     chart_summary :=
       {| average := 7%float;
          total_achieved := 7%float;
          total_possible := 100;
          total_percentage := 0x1.c000000000001p+2%float;
          num_subjects := 1 |} |}.

(** Two students with the same name. *)
Definition ann_50 : list cell := [word "Ann"; Num 1; Num 50].

Definition ann_90 : list cell := [word "Ann"; Num 1; Num 90].

Definition same_name : DataFrame :=
  {| columns := one_subject_columns; rows := [ann_50; ann_90] |}.

(** Two students with the same number as their name. *)
Definition same_number_name : DataFrame :=
  {| columns := one_subject_columns;
     rows := [ [Num 1001; Num 1; Num 50]; [Num 1001; Num 1; Num 90] ] |}.

(** A text in a percentage cell, beside a missing subject in the first
    table and beside a present one in the second. *)
Definition text_beside_missing : DataFrame :=
  {| columns := one_subject_columns;
     rows := [ [word "Ann"; NA; word "abc"];
               [word "Bob"; Num 1; Num 90] ] |}.

Definition text_beside_present : DataFrame :=
  {| columns := one_subject_columns;
     rows := [ [word "Bob"; Num 1; Num 90];
               [word "Ann"; Num 1; word "abc"] ] |}.

(** A table with rows and no column: [pd.DataFrame(index=[0])]. *)
Definition no_columns : DataFrame := {| columns := []; rows := [[]] |}.

(** A workbook whose header holds the years as numbers. *)
Definition year_headers : DataFrame :=
  {| columns := [Text "Student"; NotText "2023"; NotText "2024"];
     rows := [[word "Ann"; Num 1; Num 50]] |}.


(** A student column of numbers. *)
Definition numbered_students : DataFrame :=
  {| columns := one_subject_columns;
     rows := [ [Num 1001; Num 1; Num 50]; [Num 1002; Num 1; Num 90] ] |}.

(* ------------------------------------------------------------------ *)
(** ** The detector *)
(* ------------------------------------------------------------------ *)

Unset Implicit Arguments.

(** Membership in, and a property of all members of, a list given in full. *)
Ltac in_list := simpl; repeat (first [left; reflexivity | right]).
Ltac for_all tac := repeat (apply Forall_cons; [tac|]); apply Forall_nil.

Lemma label_eqb_spec (a b : label) : reflect (a = b) (label_eqb a b).
Proof.
  destruct a as [s|s], b as [t|t]; simpl;
    try (constructor; discriminate);
    destruct (String.eqb_spec s t); constructor; congruence.
Qed.

Lemma label_eqb_refl (a : label) : label_eqb a a = true.
Proof. now destruct (label_eqb_spec a a). Qed.

Lemma nth_after_prefix (pre rest : list label) (i : nat) :
  nth (length pre + i) (pre ++ rest) (Text "") = nth i rest (Text "").
Proof.
  rewrite app_nth2 by lia. f_equal. lia.
Qed.

(** The index loop, started at position [length pre], consumes the
    remaining columns two at a time and raises at the first percentage
    header that is not a text. *)
Lemma pair_loop (fuel : nat) :
  forall (pre rest : list label) (acc : list (label * label * bool)),
    length rest <= fuel ->
    for_each (pair_body (pre ++ rest))
      (range_from fuel (length pre) (length (pre ++ rest)) 2) acc
    = if forallb is_text (percentage_headers rest)
      then Ok (acc ++ pair_up rest)
      else Raise (AttributeError "lower").
Proof.
  induction fuel as [|fuel IH]; intros pre rest acc Hfuel.
  - destruct rest; [|simpl in Hfuel; lia]. simpl. now rewrite app_nil_r.
  - simpl range_from. rewrite length_app.
    destruct rest as [|s [|p rest]].
    + simpl. replace (length pre <? length pre + 0) with false
        by (symmetry; apply Nat.ltb_ge; lia).
      simpl. now rewrite app_nil_r.
    + replace (length pre <? length pre + length [s]) with true
        by (symmetry; apply Nat.ltb_lt; simpl; lia).
      cbn [for_each]. unfold pair_body at 1. rewrite length_app.
      replace (length pre + 1 <? length pre + length [s]) with false
        by (symmetry; apply Nat.ltb_ge; simpl; lia).
      cbn [bind].
      destruct fuel as [|fuel']; simpl.
      * now rewrite app_nil_r.
      * replace (length pre + 2 <? length pre + 1) with false
          by (symmetry; apply Nat.ltb_ge; lia).
        simpl. now rewrite app_nil_r.
    + replace (length pre <? length pre + length (s :: p :: rest)) with true
        by (symmetry; apply Nat.ltb_lt; simpl; lia).
      cbn [for_each]. unfold pair_body at 1. rewrite length_app.
      replace (length pre + 1 <? length pre + length (s :: p :: rest)) with true
        by (symmetry; apply Nat.ltb_lt; simpl; lia).
      cbv zeta.
      replace (nth (length pre + 1) (pre ++ s :: p :: rest) (Text "")) with p
        by (now rewrite nth_after_prefix).
      replace (nth (length pre) (pre ++ s :: p :: rest) (Text "")) with s
        by (rewrite <- (Nat.add_0_r (length pre)) at 1;
            now rewrite nth_after_prefix).
      cbn [percentage_headers forallb pair_up].
      destruct p as [t|shown]; cbn [percentage_flag is_text header_flag bind andb];
        [|reflexivity].
      specialize (IH (pre ++ [s; Text t]) rest
                    (acc ++ [(s, Text t, is_percentage_col t)])).
      rewrite <- app_assoc in IH. simpl app in IH.
      rewrite length_app in IH. simpl length in IH.
      rewrite !length_app in *. simpl length in *.
      rewrite IH by lia. rewrite <- app_assoc. reflexivity.
Qed.

Lemma potential_pairs_pair_up (cols : list label) :
  potential_pairs cols
  = if forallb is_text (percentage_headers (tl cols))
    then Ok (pair_up (tl cols))
    else Raise (AttributeError "lower").
Proof.
  unfold potential_pairs, range.
  destruct cols as [|c0 rest]; [reflexivity|].
  change (c0 :: rest) with ([c0] ++ rest).
  change 1 with (length [c0]) at 1.
  apply (pair_loop _ [c0] rest []).
  rewrite length_app. simpl. lia.
Qed.

Lemma pair_up_seq (trailing : list label) :
  forall c0 n,
    length trailing = 2 * n \/ length trailing = 2 * n + 1 ->
    pair_up trailing = map (pair_at (c0 :: trailing)) (seq 0 n).
Proof.
  induction trailing as [trailing IH] using
    (well_founded_induction (well_founded_ltof _ (@length label))).
  intros c0 n Hn.
  destruct trailing as [|s [|p rest]].
  - assert (n = 0) by (simpl in Hn; lia). subst. reflexivity.
  - assert (n = 0) by (simpl in Hn; lia). subst. reflexivity.
  - destruct n as [|n]; [simpl in Hn; lia|].
    simpl pair_up. simpl seq. simpl map.
    f_equal.
    rewrite <- seq_shift, map_map.
    rewrite (IH rest) with (c0 := p) (n := n).
    + apply map_ext. intro k. unfold pair_at.
      replace (1 + 2 * S k) with (S (S (1 + 2 * k))) by lia.
      replace (2 + 2 * S k) with (S (S (2 + 2 * k))) by lia.
      reflexivity.
    + unfold ltof. simpl. lia.
    + simpl in Hn. lia.
Qed.

Lemma empty_false (df : DataFrame) :
  empty df = false <-> rows df <> [] /\ columns df <> [].
Proof.
  unfold empty. destruct (rows df), (columns df); split;
    try discriminate; try (intros [H1 H2]; congruence);
    intros _; split; discriminate.
Qed.

(** The four results of [validate_data]. *)
Lemma validate_data_cases (df : DataFrame) :
  (empty df = true /\ validate_data df = Ok ([msg_empty], None))
  \/ (empty df = false /\ length (columns df) < 3
      /\ validate_data df = Ok ([msg_columns], None))
  \/ (empty df = false /\ 3 <= length (columns df)
      /\ forallb is_text (percentage_headers (tl (columns df))) = true
      /\ pair_up (tl (columns df)) <> []
      /\ validate_data df
         = Ok ([], Some (paired (nth 0 (columns df) (Text ""))
                           (pair_up (tl (columns df))))))
  \/ (empty df = false /\ 3 <= length (columns df)
      /\ forallb is_text (percentage_headers (tl (columns df))) = false
      /\ validate_data df = Raise (AttributeError "lower")).
Proof.
  destruct (empty df) eqn:E.
  - left. unfold validate_data. now rewrite E.
  - right. destruct (Nat.ltb_spec (length (columns df)) 3) as [H|H].
    + left. unfold validate_data. rewrite E.
      replace (length (columns df) <? 3) with true
        by (symmetry; apply Nat.ltb_lt; exact H).
      auto.
    + right. unfold validate_data. rewrite E.
      replace (length (columns df) <? 3) with false
        by (symmetry; apply Nat.ltb_ge; exact H).
      rewrite potential_pairs_pair_up.
      destruct (forallb is_text (percentage_headers (tl (columns df)))) eqn:T.
      * left. cbn [bind].
        split; [reflexivity|]. split; [exact H|]. split; [reflexivity|].
        destruct (columns df) as [|c0 [|c1 [|c2 rest]]]; try (simpl in H; lia).
        simpl. split; [discriminate|reflexivity].
      * right. auto.
Qed.





(** Scenario D: five trailing columns give two pairs, the fifth is left. *)
Example validate_data_scenario_D :
  validate_data
    {| columns := [Text "Student"; Text "A"; Text "A %"; Text "B"; Text "B %"; Text "C"];
       rows := [[word "Ann"; Num 1; Num 10; Num 2; Num 20; Num 3]] |}
  = Ok ([], Some (paired (Text "Student")
                    [(Text "A", Text "A %", true); (Text "B", Text "B %", true)])).
Proof. reflexivity. Qed.

(** Scenario B: two columns are not enough. *)
Example validate_data_scenario_B :
  validate_data {| columns := [Text "Student"; Text "A"];
                   rows := [[word "Ann"; Num 1]] |}
  = Ok ([msg_columns], None).
Proof. reflexivity. Qed.




(** C8 as stated fails: a table with one row and no column has rows, and
    [validate_data] reports it as containing no data. *)
Lemma empty_table_with_rows :
  rows no_columns <> []
  /\ validate_data no_columns = Ok ([msg_empty], None).
Proof.
  split; [discriminate|reflexivity].
Qed.

Lemma main_empty_not_generated (R : Renderer) (df : DataFrame)
    (manual : result (option data_format)) :
  empty df = true ->
  forall charts student_summaries,
    snd (main R df manual) <> Generated charts student_summaries.
Proof.
  intros He charts sums. unfold main, validate_data. rewrite He.
  destruct manual as [[fmt|]|e]; simpl; try discriminate.
  unfold process_data_and_create_charts.
  destruct (String.eqb (format fmt) "paired"); [|discriminate].
  unfold empty in He.
  destruct (rows df) as [|r rs]; [discriminate|].
  destruct (columns df) as [|c cs]; [|discriminate].
  simpl. discriminate.
Qed.

(** C8, amended: [validate_data] reports that the file contains no data
    exactly when the table has zero rows or zero columns ([df.empty]); for
    such a table no mapping is returned and the run generates no chart,
    whatever the selection of the columns by hand does. *)
Theorem validate_data_empty_iff (df : DataFrame) :
  (validate_data df = Ok ([msg_empty], None)
   <-> rows df = [] \/ columns df = [])
  /\ (rows df = [] \/ columns df = [] ->
      forall R manual charts student_summaries,
        snd (main R df manual) <> Generated charts student_summaries).
Proof.
  assert (Hempty : empty df = true <-> rows df = [] \/ columns df = []).
  { unfold empty. destruct (rows df), (columns df); split; intro H;
      try reflexivity; try discriminate; auto;
      destruct H; discriminate. }
  split.
  - rewrite <- Hempty.
    destruct (validate_data_cases df)
      as [[E H]|[[E [_ H]]|[[E [_ [_ [_ H]]]]|[E [_ [_ H]]]]]];
      rewrite H, E; split; try discriminate; reflexivity.
  - intros H R manual. apply main_empty_not_generated. now apply Hempty.
Qed.

(* ------------------------------------------------------------------ *)
(** ** Loops and lookups *)
(* ------------------------------------------------------------------ *)

Lemma for_each_app {S X} (body : S -> X -> result S) (l1 l2 : list X) (s : S) :
  for_each body (l1 ++ l2) s = s' <- for_each body l1 s ;; for_each body l2 s'.
Proof.
  revert s. induction l1 as [|x l1 IH]; intro s; simpl; [reflexivity|].
  destruct (body s x); simpl; [apply IH|reflexivity].
Qed.

Lemma getitem_In (cols : list label) (row : list cell) (col : label) :
  In col cols -> length cols <= length row ->
  exists c, getitem cols row col = Ok c.
Proof.
  revert row. induction cols as [|c cols IH]; intros row Hin Hlen; [easy|].
  destruct row as [|v row]; [simpl in Hlen; lia|]. simpl.
  destruct (label_eqb c col) eqn:E; [eauto|].
  apply IH; [|simpl in Hlen; lia].
  destruct Hin as [->|]; [|assumption].
  now rewrite label_eqb_refl in E.
Qed.

Lemma getitem_raises (cols : list label) (row : list cell) (col : label) e :
  getitem cols row col = Raise e -> e = KeyError col.
Proof.
  revert row. induction cols as [|c cols IH]; intros row H; simpl in H.
  - congruence.
  - destruct row as [|v row]; [congruence|].
    destruct (label_eqb c col); [discriminate|eauto].
Qed.

Lemma getitem_not_In (cols : list label) (row : list cell) (col : label) :
  ~ In col cols -> getitem cols row col = Raise (KeyError col).
Proof.
  revert row. induction cols as [|c cols IH]; intros row Hin; simpl; [reflexivity|].
  destruct row as [|v row]; [reflexivity|].
  destruct (label_eqb_spec c col) as [->|_]; [simpl in Hin; tauto|].
  apply IH. simpl in Hin. tauto.
Qed.

(* ------------------------------------------------------------------ *)
(** ** The inner loop over the pairs *)
(* ------------------------------------------------------------------ *)

(** One pair either leaves the running lists as they are or adds one
    subject and one score, according to [both_present]. *)
Lemma extract_pair_Ok cols row acc pair acc' :
  extract_pair cols row acc pair = Ok acc' ->
  if both_present cols row pair
  then exists p x,
      getitem cols row (snd (fst pair)) = Ok p
      /\ float_of_cell p = Ok x
      /\ acc' = (fst acc ++ [fst (fst pair)], snd acc ++ [x])
  else acc' = acc.
Proof.
  destruct pair as [[subject_col percentage_col] flag].
  unfold extract_pair, both_present. simpl.
  destruct (getitem cols row subject_col) as [s|e]; simpl; [|discriminate].
  destruct (notna s); simpl; [|congruence].
  destruct (getitem cols row percentage_col) as [p|e]; simpl; [|discriminate].
  destruct (notna p); simpl; [|congruence].
  destruct (float_of_cell p) as [x|e] eqn:F; simpl; [|discriminate].
  intros [= <-]. eauto.
Qed.

Lemma extract_loop cols row pairs :
  forall acc subjects scores,
    for_each (extract_pair cols row) pairs acc = Ok (subjects, scores) ->
    subjects = fst acc ++ map (fun p => fst (fst p)) (filter (both_present cols row) pairs)
    /\ exists xs,
        scores = snd acc ++ xs
        /\ Forall2 (fun pair x => exists p, getitem cols row (snd (fst pair)) = Ok p
                                            /\ float_of_cell p = Ok x)
             (filter (both_present cols row) pairs) xs.
Proof.
  induction pairs as [|pair pairs IH]; intros acc subjects scores H; simpl in H.
  - injection H as H. subst acc. simpl. rewrite app_nil_r.
    split; [reflexivity|]. exists []. rewrite app_nil_r. now split.
  - destruct (extract_pair cols row acc pair) as [acc'|e] eqn:E; [|discriminate].
    simpl in H. apply IH in H. destruct H as [Hs [xs [Hx HF]]].
    apply extract_pair_Ok in E. simpl filter.
    destruct (both_present cols row pair).
    + destruct E as [p [x [Hp [Hf ->]]]]. simpl in Hs, Hx.
      rewrite <- app_assoc in Hs, Hx. simpl in Hs, Hx.
      split; [exact Hs|]. exists (x :: xs). split; [exact Hx|].
      constructor; eauto.
    + subst acc'. split; [exact Hs|]. exists xs. now split.
Qed.

Lemma extract_lengths cols row pairs subjects scores :
  for_each (extract_pair cols row) pairs ([], []) = Ok (subjects, scores) ->
  length subjects = length scores.
Proof.
  intro H. apply extract_loop in H. destruct H as [-> [xs [-> HF]]]. simpl.
  rewrite length_map. now apply Forall2_length in HF.
Qed.

Lemma extract_pairs_filter cols row pairs subjects scores :
  for_each (extract_pair cols row) pairs ([], []) = Ok (subjects, scores) ->
  subjects = map (fun p => fst (fst p)) (filter (both_present cols row) pairs)
  /\ Forall2 (fun pair x => exists p, getitem cols row (snd (fst pair)) = Ok p
                                      /\ float_of_cell p = Ok x)
       (filter (both_present cols row) pairs) scores.
Proof.
  intro H. apply extract_loop in H. destruct H as [Hs [xs [Hx HF]]].
  simpl in Hs, Hx. subst. auto.
Qed.

(* ------------------------------------------------------------------ *)
(** ** The loop over the rows *)
(* ------------------------------------------------------------------ *)

Lemma process_row_drawn R cols fmt state row :
  process_row R cols fmt state row
  = o <- row_drawn R cols fmt row ;; Ok (add_chart state o).
Proof.
  unfold process_row, row_drawn, row_chart. destruct state as [charts sums].
  destruct (getitem cols row (student_col fmt)) as [name|e]; simpl; [|reflexivity].
  destruct (for_each _ _ _) as [[labels values]|e]; simpl; [|reflexivity].
  destruct labels; simpl; [reflexivity|].
  destruct (draw R _) as [[]|e]; reflexivity.
Qed.

Lemma row_drawn_Ok R cols fmt row o :
  row_drawn R cols fmt row = Ok o ->
  row_chart cols fmt row = Ok o
  /\ forall c, o = Some c -> draw R c = Ok tt.
Proof.
  unfold row_drawn.
  destruct (row_chart cols fmt row) as [[c|]|e]; simpl; try discriminate.
  - destruct (draw R c) as [[]|e] eqn:D; simpl; [|discriminate].
    intros [= <-]. split; [reflexivity|]. now intros c' [= <-].
  - intros [= <-]. split; [reflexivity|]. discriminate.
Qed.

Lemma row_drawn_skipped R cols fmt row :
  row_chart cols fmt row = Ok None -> row_drawn R cols fmt row = Ok None.
Proof.
  intro H. unfold row_drawn. now rewrite H.
Qed.

Lemma rows_loop_Ok R cols fmt rows :
  forall state state',
    for_each (process_row R cols fmt) rows state = Ok state' ->
    exists outs,
      Forall2 (fun row o => row_drawn R cols fmt row = Ok o) rows outs
      /\ state' = fold_left add_chart outs state.
Proof.
  induction rows as [|row rows IH]; intros state state' H; simpl in H.
  - injection H as <-. exists []. now split.
  - rewrite process_row_drawn in H.
    destruct (row_drawn R cols fmt row) as [o|e] eqn:E; [|discriminate].
    simpl in H. apply IH in H. destruct H as [outs [HF ->]].
    exists (o :: outs). split; [now constructor|reflexivity].
Qed.

Lemma rows_loop_run R cols fmt rows outs :
  Forall2 (fun row o => row_drawn R cols fmt row = Ok o) rows outs ->
  forall state,
    for_each (process_row R cols fmt) rows state = Ok (fold_left add_chart outs state).
Proof.
  induction 1 as [|row o rows outs Hrow _ IH]; intro state; simpl; [reflexivity|].
  rewrite process_row_drawn, Hrow. simpl. apply IH.
Qed.

Lemma add_charts_fst outs :
  forall state, fst (fold_left add_chart outs state) = fst state ++ somes outs.
Proof.
  induction outs as [|o outs IH]; intro state; simpl.
  - now rewrite app_nil_r.
  - rewrite IH. destruct o as [c|]; simpl; [|reflexivity].
    now rewrite <- app_assoc.
Qed.

Lemma add_charts_snd outs :
  forall state,
    snd (fold_left add_chart outs state)
    = fold_left (fun d c => dict_set d (student c) (chart_summary c))
        (somes outs) (snd state).
Proof.
  induction outs as [|o outs IH]; intro state; simpl; [reflexivity|].
  rewrite IH. destruct o as [c|]; reflexivity.
Qed.

(** What a row yields when it is the only row of the table. *)
Lemma process_alone R cols fmt row :
  format fmt = "paired" ->
  process_data_and_create_charts R (alone cols row) fmt
  = o <- row_drawn R cols fmt row ;; Ok (add_chart ([], []) o).
Proof.
  intro Hf. unfold process_data_and_create_charts.
  rewrite Hf, String.eqb_refl. unfold alone. cbn [rows columns for_each].
  rewrite process_row_drawn.
  destruct (row_drawn R cols fmt row); reflexivity.
Qed.

Lemma charts_alone R cols fmt row o :
  format fmt = "paired" ->
  row_drawn R cols fmt row = Ok o ->
  charts_of (process_data_and_create_charts R (alone cols row) fmt) = somes [o].
Proof.
  intros Hf Hrow. rewrite process_alone, Hrow by assumption.
  destruct o; reflexivity.
Qed.

Lemma process_paired_Ok R df fmt charts sums :
  format fmt = "paired" ->
  process_data_and_create_charts R df fmt = Ok (charts, sums) ->
  exists outs,
    Forall2 (fun row o => row_drawn R (columns df) fmt row = Ok o) (rows df) outs
    /\ charts = somes outs
    /\ sums = fold_left (fun d c => dict_set d (student c) (chart_summary c))
               (somes outs) [].
Proof.
  intros Hf H. unfold process_data_and_create_charts in H.
  rewrite Hf, String.eqb_refl in H. apply rows_loop_Ok in H.
  destruct H as [outs [HF E]].
  exists outs. split; [exact HF|].
  pose proof (add_charts_fst outs ([], [])) as H1.
  pose proof (add_charts_snd outs ([], [])) as H2.
  rewrite <- E in H1, H2. simpl in H1, H2. now split.
Qed.

Lemma process_not_paired R df fmt :
  format fmt <> "paired" ->
  process_data_and_create_charts R df fmt = Ok ([], []).
Proof.
  intro Hf. unfold process_data_and_create_charts.
  destruct (String.eqb_spec (format fmt) "paired"); [contradiction|reflexivity].
Qed.

Lemma somes_alone R cols fmt rows outs :
  format fmt = "paired" ->
  Forall2 (fun row o => row_drawn R cols fmt row = Ok o) rows outs ->
  somes outs
  = flat_map (fun row => charts_of (process_data_and_create_charts R (alone cols row) fmt))
      rows.
Proof.
  intro Hf. induction 1 as [|row o rows outs Hrow _ IH]; [reflexivity|].
  simpl flat_map. rewrite <- IH. rewrite (charts_alone _ _ _ _ _ Hf Hrow).
  unfold somes. simpl. now rewrite app_nil_r.
Qed.

Lemma charts_flat_map R df fmt charts sums :
  process_data_and_create_charts R df fmt = Ok (charts, sums) ->
  charts
  = flat_map
      (fun row => charts_of (process_data_and_create_charts R (alone (columns df) row) fmt))
      (rows df).
Proof.
  intro H.
  destruct (String.eqb_spec (format fmt) "paired") as [Hf|Hf].
  - destruct (process_paired_Ok _ _ _ _ _ Hf H) as [outs [HF [-> _]]].
    now apply somes_alone.
  - rewrite process_not_paired in H by assumption. injection H as <- <-.
    induction (rows df) as [|row rows IH]; [reflexivity|].
    simpl. rewrite process_not_paired by assumption. exact IH.
Qed.

(** C9: the charts a run returns are, row after row in the order of the
    table, the chart each row yields when processed alone; a row yields
    at most one chart, and a skipped row none. *)
Theorem charts_in_row_order (R : Renderer) (df : DataFrame) (fmt : data_format)
    charts sums :
  process_data_and_create_charts R df fmt = Ok (charts, sums) ->
  charts
  = flat_map
      (fun row => charts_of (process_data_and_create_charts R (alone (columns df) row) fmt))
      (rows df)
  /\ Forall
       (fun row =>
          length (charts_of (process_data_and_create_charts R (alone (columns df) row) fmt))
          <= 1)
       (rows df).
Proof.
  intro H. split; [now apply (charts_flat_map R df fmt charts sums)|].
  apply Forall_forall. intros row _.
  destruct (String.eqb_spec (format fmt) "paired") as [Hf|Hf].
  - rewrite process_alone by assumption.
    destruct (row_drawn R (columns df) fmt row) as [[c|]|e]; simpl; lia.
  - rewrite process_not_paired by assumption. simpl. lia.
Qed.

(** Scenario A, both rows kept, Alice before Bob. *)
Lemma charts_in_row_order_scenario_A :
  exists charts sums,
    process_data_and_create_charts quiet scenario_A scenario_A_format
    = Ok (charts, sums)
    /\ map student charts = [word "Alice"; word "Bob"]
    /\ charts
       = flat_map
           (fun row => charts_of (process_data_and_create_charts quiet
                                    (alone (columns scenario_A) row) scenario_A_format))
           (rows scenario_A).
Proof.
  eexists. eexists. split; [reflexivity|]. split; [reflexivity|].
  eapply (proj1 (charts_in_row_order quiet scenario_A scenario_A_format _ _ eq_refl)).
Defined.

(* ------------------------------------------------------------------ *)
(** ** The record of a row *)
(* ------------------------------------------------------------------ *)

Lemma row_chart_Ok cols fmt row o :
  row_chart cols fmt row = Ok o ->
  exists name labels values,
    getitem cols row (student_col fmt) = Ok name
    /\ for_each (extract_pair cols row) (subject_percentage_pairs fmt) ([], [])
       = Ok (labels, values)
    /\ o = match labels with
           | [] => None
           | _ :: _ => Some {| student := name;
                               subjects := labels;
                               scores := values;
                               chart_summary := summarize labels values |}
           end.
Proof.
  unfold row_chart. intro H.
  destruct (getitem cols row (student_col fmt)) as [name|e]; [|discriminate].
  simpl in H.
  destruct (for_each _ _ _) as [[labels values]|e]; [|discriminate].
  simpl in H. injection H as <-. now exists name, labels, values.
Qed.

Lemma in_somes outs c : In c (somes outs) <-> In (Some c) outs.
Proof.
  unfold somes. rewrite in_flat_map. split.
  - intros [[c'|] [Hin Hc]]; simpl in Hc; [|easy].
    destruct Hc as [->|[]]. exact Hin.
  - intro Hin. exists (Some c). simpl. auto.
Qed.

Lemma Forall2_In_l {A B} (P : A -> B -> Prop) l1 l2 a :
  Forall2 P l1 l2 -> In a l1 -> exists b, In b l2 /\ P a b.
Proof.
  induction 1 as [|x y l1 l2 Hxy _ IH]; intros Hin; [easy|].
  destruct Hin as [->|Hin].
  - exists y. simpl. auto.
  - destruct (IH Hin) as [b [Hb Hab]]. exists b. simpl. auto.
Qed.

Lemma Forall2_In_r {A B} (P : A -> B -> Prop) l1 l2 b :
  Forall2 P l1 l2 -> In b l2 -> exists a, In a l1 /\ P a b.
Proof.
  induction 1 as [|x y l1 l2 Hxy _ IH]; intros Hin; [easy|].
  destruct Hin as [->|Hin].
  - exists x. simpl. auto.
  - destruct (IH Hin) as [a [Ha Hab]]. exists a. simpl. auto.
Qed.

(** Every chart of a run comes from a row of the table, with that row's
    name, lists and statistics, and its figure was drawn. *)
Lemma chart_from_row R df fmt charts sums c :
  process_data_and_create_charts R df fmt = Ok (charts, sums) ->
  In c charts ->
  exists row,
    In row (rows df)
    /\ getitem (columns df) row (student_col fmt) = Ok (student c)
    /\ for_each (extract_pair (columns df) row) (subject_percentage_pairs fmt) ([], [])
       = Ok (subjects c, scores c)
    /\ subjects c <> []
    /\ chart_summary c = summarize (subjects c) (scores c)
    /\ draw R c = Ok tt.
Proof.
  intros H Hin.
  destruct (String.eqb_spec (format fmt) "paired") as [Hf|Hf].
  - destruct (process_paired_Ok _ _ _ _ _ Hf H) as [outs [HF [-> _]]].
    apply in_somes in Hin.
    destruct (Forall2_In_r _ _ _ _ HF Hin) as [row [Hrow Hd]].
    exists row. split; [exact Hrow|].
    apply row_drawn_Ok in Hd. destruct Hd as [Hc Hdraw].
    apply row_chart_Ok in Hc.
    destruct Hc as [name [labels [values [Hn [He Ho]]]]].
    destruct labels as [|s rest]; [discriminate|].
    injection Ho as Ho. rewrite (Hdraw c eq_refl). subst c. simpl.
    repeat split; trivial. discriminate.
  - rewrite process_not_paired in H by assumption.
    injection H as <- <-. destruct Hin.
Qed.

(** C3: on a table on which the run returns, the running lists of every
    row are made of exactly those pairs, in order, whose subject cell and
    percentage cell are both present and not missing: the label is the
    header of the subject column and the score the [float()] value of the
    percentage cell; a row with such a pair has these lists in its chart;
    in every chart the two lists have the same length. *)
Theorem pairs_contribute_iff_both_present R df fmt charts sums :
  format fmt = "paired" ->
  process_data_and_create_charts R df fmt = Ok (charts, sums) ->
  (forall row, In row (rows df) ->
     exists labels values,
       for_each (extract_pair (columns df) row) (subject_percentage_pairs fmt) ([], [])
       = Ok (labels, values)
       /\ labels
          = map (fun p => fst (fst p))
              (filter (both_present (columns df) row) (subject_percentage_pairs fmt))
       /\ Forall2
            (fun pair x => exists p,
                 getitem (columns df) row (snd (fst pair)) = Ok p
                 /\ float_of_cell p = Ok x)
            (filter (both_present (columns df) row) (subject_percentage_pairs fmt))
            values
       /\ (labels <> [] ->
           exists c, In c charts /\ subjects c = labels /\ scores c = values))
  /\ (forall c, In c charts -> length (subjects c) = length (scores c)).
Proof.
  intros Hf H. split.
  - intros row Hrow.
    destruct (process_paired_Ok _ _ _ _ _ Hf H) as [outs [HF [-> _]]].
    destruct (Forall2_In_l _ _ _ _ HF Hrow) as [o [Ho Hd]].
    apply row_drawn_Ok in Hd. destruct Hd as [Hc _].
    apply row_chart_Ok in Hc.
    destruct Hc as [name [labels [values [Hn [He Hoeq]]]]].
    exists labels, values. split; [exact He|].
    destruct (extract_pairs_filter _ _ _ _ _ He) as [Hs HF2].
    split; [exact Hs|]. split; [exact HF2|].
    intro Hne. destruct labels as [|s rest] eqn:Es; [congruence|].
    eexists. split; [apply in_somes; rewrite <- Hoeq; exact Ho|].
    now split.
  - intros c Hin.
    destruct (chart_from_row _ _ _ _ _ _ H Hin) as [row [_ [_ [He _]]]].
    now apply extract_lengths in He.
Qed.

(** Scenario A: Alice's second pair is missing and contributes nothing. *)
Lemma pairs_contribute_scenario_A :
  format scenario_A_format = "paired"
  /\ map (fun c => (subjects c, scores c))
       (charts_of (process_data_and_create_charts quiet scenario_A scenario_A_format))
     = [([Text "Chem"], [80%float]);
        ([Text "Chem"; Text "Bio"], [70%float; 90%float])]
  /\ forall c,
      In c (charts_of (process_data_and_create_charts quiet scenario_A scenario_A_format)) ->
      length (subjects c) = length (scores c).
Proof.
  split; [reflexivity|]. split; [reflexivity|].
  exact (proj2 (pairs_contribute_iff_both_present
                  quiet scenario_A scenario_A_format _ _ eq_refl eq_refl)).
Defined.

(* ------------------------------------------------------------------ *)
(** ** Summary statistics *)
(* ------------------------------------------------------------------ *)

Lemma dict_set_values (d : summaries) k v k' v' :
  In (k', v') (dict_set d k v) -> In (k', v') d \/ v' = v.
Proof.
  induction d as [|[k0 v0] d IH]; simpl.
  - intros [[= <- <-]|[]]. now right.
  - destruct (cell_eqb k0 k); simpl.
    + intros [[= <- <-]|H]; auto.
    + intros [H|H]; auto. destruct (IH H); auto.
Qed.

Lemma summaries_values (cs : list chart) :
  forall (d : summaries) k v,
    In (k, v) (fold_left (fun d c => dict_set d (student c) (chart_summary c)) cs d) ->
    In (k, v) d \/ exists c, In c cs /\ v = chart_summary c.
Proof.
  induction cs as [|c cs IH]; intros d k v H; simpl in H; [now left|].
  apply IH in H. destruct H as [H|[c' [Hc' ->]]].
  - apply dict_set_values in H. destruct H as [H| ->]; [now left|].
    right. exists c. simpl. auto.
  - right. exists c'. simpl. auto.
Qed.

Lemma chart_scores_nonempty R df fmt charts sums c :
  process_data_and_create_charts R df fmt = Ok (charts, sums) ->
  In c charts -> scores c <> [].
Proof.
  intros H Hin.
  destruct (chart_from_row _ _ _ _ _ _ H Hin) as [row [_ [_ [He [Hne _]]]]].
  apply extract_lengths in He.
  destruct (scores c); [|discriminate].
  destruct (subjects c); [congruence|discriminate].
Qed.

(** C1: in every chart of a run the scores are not empty and the summary
    holds their mean [sum(scores)/len(scores)], their sum, [100 *
    len(scores)] and [total_achieved/total_possible*100], in binary64
    arithmetic; every entry of [student_summaries] is the summary of one of
    the charts; on an empty list of scores the formula of the percentage
    gives 0. *)
Theorem summary_statistics R df fmt charts sums :
  process_data_and_create_charts R df fmt = Ok (charts, sums) ->
  (forall c, In c charts ->
     let s := chart_summary c in
     scores c <> []
     /\ average s = (Py.sum (scores c) / float_of_nat (length (scores c)))%float
     /\ total_achieved s = Py.sum (scores c)
     /\ total_possible s = 100 * length (scores c)
     /\ total_percentage s
        = (total_achieved s / float_of_nat (total_possible s) * 100)%float)
  /\ (forall name s, In (name, s) sums -> exists c, In c charts /\ s = chart_summary c)
  /\ (forall labels,
        total_possible (summarize labels (@nil float)) = 0
        /\ total_percentage (summarize labels (@nil float)) = 0%float).
Proof.
  intro H. split; [|split].
  - intros c Hin s.
    pose proof (chart_scores_nonempty _ _ _ _ _ _ H Hin) as Hne.
    destruct (chart_from_row _ _ _ _ _ _ H Hin) as [row [_ [_ [_ [_ [Hs _]]]]]].
    subst s. rewrite Hs. split; [exact Hne|].
    destruct (scores c) as [|x xs] eqn:E; [congruence|].
    unfold summarize. cbn [average total_achieved total_possible total_percentage].
    repeat split.
  - intros name s Hin.
    destruct (String.eqb_spec (format fmt) "paired") as [Hf|Hf].
    + destruct (process_paired_Ok _ _ _ _ _ Hf H) as [outs [_ [-> ->]]].
      apply summaries_values in Hin. destruct Hin as [[]|Hin]. exact Hin.
    + rewrite process_not_paired in H by assumption.
      injection H as <- <-. destruct Hin.
  - intro labels. split; reflexivity.
Qed.

(** Bob of scenario A: mean 80 of 70 and 90, 160 out of 200. *)
Lemma summary_statistics_scenario_A :
  exists charts sums,
    process_data_and_create_charts quiet scenario_A scenario_A_format
    = Ok (charts, sums)
    /\ map (fun c => (average (chart_summary c), total_achieved (chart_summary c),
                      total_possible (chart_summary c),
                      total_percentage (chart_summary c))) charts
       = [(80%float, 80%float, 100, 80%float); (80%float, 160%float, 200, 80%float)]
    /\ forall c, In c charts ->
         let s := chart_summary c in
         scores c <> []
         /\ average s = (Py.sum (scores c) / float_of_nat (length (scores c)))%float
         /\ total_achieved s = Py.sum (scores c)
         /\ total_possible s = 100 * length (scores c)
         /\ total_percentage s
            = (total_achieved s / float_of_nat (total_possible s) * 100)%float.
Proof.
  eexists. eexists. split; [reflexivity|]. split; [reflexivity|].
  exact (proj1 (summary_statistics quiet scenario_A scenario_A_format _ _ eq_refl)).
Defined.

(** C10 as stated fails: one score of 7 gives the average 7 and the total
    percentage [7/100*100], which is the next binary64 number after 7. *)
Lemma seven_percent_differs :
  process_data_and_create_charts quiet seven_percent one_subject_format
  = Ok ([seven_percent_chart],
        [(student seven_percent_chart, chart_summary seven_percent_chart)])
  /\ PrimFloat.eqb (total_percentage (chart_summary seven_percent_chart))
       (average (chart_summary seven_percent_chart))
     = false
  /\ (total_percentage (chart_summary seven_percent_chart)
      - average (chart_summary seven_percent_chart))%float
     = 0x1p-50%float.
Proof.
  repeat split.
Qed.

Lemma Q_of_nat_hundred (n : nat) :
  (inject_Z (Z.of_nat (100 * n)) == 100 * inject_Z (Z.of_nat n))%Q.
Proof.
  rewrite Nat2Z.inj_mul, inject_Z_mult. reflexivity.
Qed.

(** Over the rationals, the percentage of the total is the mean. *)
Lemma exact_percentage_mean (labels : list label) (qs : list Q) :
  qs <> [] ->
  (total_percentage (summarize labels qs) == average (summarize labels qs))%Q.
Proof.
  intro Hne. destruct qs as [|q qs]; [congruence|].
  unfold summarize. cbn [average total_percentage].
  set (n := length (q :: qs)).
  assert (Hn : 0 < n) by (subst n; simpl; lia).
  replace (0 <? 100 * n) with true by (symmetry; apply Nat.ltb_lt; lia).
  cbn [mul div of_nat Q_arith].
  rewrite Q_of_nat_hundred.
  assert (Hq : ~ (inject_Z (Z.of_nat n) == 0)%Q).
  { intro E. apply (inject_Z_injective (Z.of_nat n) 0) in E. lia. }
  change (inject_Z (Z.of_nat 100)) with 100%Q.
  field. exact Hq.
Qed.

(** C10, amended: for every chart of a run, the two formulas evaluated
    exactly, over the rationals, on the scores of the chart give the same
    number: the percentage of the total is the mean.  (The binary64 values
    the run stores can differ in the last place.) *)
Theorem exact_total_percentage_is_average R df fmt charts sums c :
  process_data_and_create_charts R df fmt = Ok (charts, sums) ->
  In c charts ->
  let exact := summarize (subjects c) (map Q_of_float (scores c)) in
  (total_percentage exact == average exact)%Q.
Proof.
  intros H Hin exact. subst exact. apply exact_percentage_mean.
  pose proof (chart_scores_nonempty _ _ _ _ _ _ H Hin) as Hne.
  destruct (scores c); [congruence|discriminate].
Qed.

(** The 7 percent table: exactly, both statistics are 7. *)
Lemma exact_total_percentage_seven_percent :
  process_data_and_create_charts quiet seven_percent one_subject_format
  = Ok ([seven_percent_chart],
        [(student seven_percent_chart, chart_summary seven_percent_chart)])
  /\ In seven_percent_chart [seven_percent_chart]
  /\ let exact := summarize (subjects seven_percent_chart)
                    (map Q_of_float (scores seven_percent_chart)) in
     (average exact == 7)%Q /\ (total_percentage exact == average exact)%Q.
Proof.
  split; [reflexivity|]. split; [simpl; auto|]. split; [reflexivity|].
  apply (exact_total_percentage_is_average quiet seven_percent one_subject_format
           [seven_percent_chart]
           [(student seven_percent_chart, chart_summary seven_percent_chart)]);
    [reflexivity|simpl; auto].
Defined.

(* ------------------------------------------------------------------ *)
(** ** Skipped rows *)
(* ------------------------------------------------------------------ *)

Lemma is_missing_Ok cols row col :
  is_missing cols row col = true ->
  exists c, getitem cols row col = Ok c /\ notna c = false.
Proof.
  unfold is_missing. destruct (getitem cols row col) as [c|e]; [|discriminate].
  intro H. exists c. split; [reflexivity|]. now destruct (notna c).
Qed.

Lemma extract_pair_missing cols row acc pair :
  length cols <= length row ->
  In (fst (fst pair)) cols ->
  is_missing cols row (fst (fst pair)) = true
  \/ is_missing cols row (snd (fst pair)) = true ->
  extract_pair cols row acc pair = Ok acc.
Proof.
  destruct pair as [[subject_col percentage_col] flag]. simpl.
  intros Hlen Hin Hmiss. unfold extract_pair.
  destruct (getitem_In cols row subject_col Hin Hlen) as [s Hs].
  rewrite Hs. simpl.
  destruct (notna s) eqn:Ns; [|reflexivity].
  destruct Hmiss as [Hm|Hm]; apply is_missing_Ok in Hm; destruct Hm as [c [Hc Nc]].
  - congruence.
  - rewrite Hc. simpl. now rewrite Nc.
Qed.

Lemma row_all_missing cols fmt row :
  length cols <= length row ->
  valid_mapping cols fmt ->
  Forall (fun pair => is_missing cols row (fst (fst pair)) = true
                      \/ is_missing cols row (snd (fst pair)) = true)
    (subject_percentage_pairs fmt) ->
  row_chart cols fmt row = Ok None.
Proof.
  intros Hlen [Hname Hpairs] Hmiss. unfold row_chart.
  destruct (getitem_In cols row (student_col fmt) Hname Hlen) as [name ->].
  simpl.
  assert (Hloop : forall acc,
             for_each (extract_pair cols row) (subject_percentage_pairs fmt) acc
             = Ok acc).
  { induction (subject_percentage_pairs fmt) as [|pair pairs IH]; intro acc;
      simpl; [reflexivity|].
    inversion Hpairs as [|? ? [Hs _] Hpairs']; subst.
    inversion Hmiss as [|? ? Hm Hmiss']; subst.
    rewrite (extract_pair_missing cols row acc pair Hlen Hs Hm). simpl.
    now apply IH. }
  rewrite Hloop. reflexivity.
Qed.

Lemma skip_row R cols fmt row pre post state :
  row_chart cols fmt row = Ok None ->
  for_each (process_row R cols fmt) (pre ++ row :: post) state
  = for_each (process_row R cols fmt) (pre ++ post) state.
Proof.
  intro Hrow. rewrite !for_each_app.
  destruct (for_each (process_row R cols fmt) pre state) as [state'|e];
    simpl; [|reflexivity].
  rewrite process_row_drawn, (row_drawn_skipped R _ _ _ Hrow). reflexivity.
Qed.

(** C4: a row in which every pair of the mapping has a missing cell yields
    nothing: processed alone it gives no chart and no summary, and the run
    on a table that holds the row returns what it returns on the table
    without the row. *)
Theorem all_missing_row_skipped R cols fmt pre row post :
  length cols <= length row ->
  valid_mapping cols fmt ->
  Forall (fun pair => is_missing cols row (fst (fst pair)) = true
                      \/ is_missing cols row (snd (fst pair)) = true)
    (subject_percentage_pairs fmt) ->
  process_data_and_create_charts R (alone cols row) fmt = Ok ([], [])
  /\ process_data_and_create_charts R {| columns := cols; rows := pre ++ row :: post |} fmt
     = process_data_and_create_charts R {| columns := cols; rows := pre ++ post |} fmt.
Proof.
  intros Hlen Hvalid Hmiss.
  pose proof (row_all_missing cols fmt row Hlen Hvalid Hmiss) as Hrow.
  destruct (String.eqb_spec (format fmt) "paired") as [Hf|Hf].
  - split.
    + rewrite process_alone, (row_drawn_skipped R _ _ _ Hrow) by assumption.
      reflexivity.
    + unfold process_data_and_create_charts. rewrite Hf, String.eqb_refl.
      cbn [rows columns]. now apply skip_row.
  - rewrite !process_not_paired by assumption. now split.
Qed.

(** Carl has a subject without percentage and a percentage without
    subject; with him between Alice and Bob the run is the run of
    scenario A. *)
Lemma all_missing_row_skipped_carl :
  (length scenario_A_columns <= length carl
   /\ valid_mapping scenario_A_columns scenario_A_format)
  /\ process_data_and_create_charts quiet (alone scenario_A_columns carl)
       scenario_A_format
     = Ok ([], [])
  /\ process_data_and_create_charts quiet
       {| columns := scenario_A_columns; rows := [alice] ++ carl :: [bob] |}
       scenario_A_format
     = process_data_and_create_charts quiet
         {| columns := scenario_A_columns; rows := [alice] ++ [bob] |}
         scenario_A_format.
Proof.
  assert (Hlen : length scenario_A_columns <= length carl) by (simpl; lia).
  assert (Hvalid : valid_mapping scenario_A_columns scenario_A_format).
  { split; [in_list|]. for_all ltac:(split; in_list). }
  split; [split; assumption|].
  apply (all_missing_row_skipped quiet scenario_A_columns scenario_A_format
           [alice] carl [bob] Hlen Hvalid).
  for_all ltac:(first [left; reflexivity | right; reflexivity]).
Defined.

(* ------------------------------------------------------------------ *)
(** ** Students with the same name *)
(* ------------------------------------------------------------------ *)

Lemma SFeqb_same (a b : spec_float) :
  SFeqb a b = true <-> same_number a b.
Proof.
  unfold SFeqb, SFcompare, same_number.
  destruct a as [sa|sa| |sa ma ea], b as [sb|sb| |sb mb eb];
    try (split; [discriminate|tauto]); try tauto.
  - destruct sb; split; (discriminate || tauto).
  - destruct sb; split; (discriminate || tauto).
  - destruct sa; split; (discriminate || tauto).
  - destruct sa, sb; split; try discriminate; try reflexivity.
  - destruct sa; split; (discriminate || tauto).
  - destruct sa; split; (discriminate || tauto).
  - destruct sb; split; (discriminate || tauto).
  - change (PosDef.Pos.compare_cont Eq ma mb) with (Pos.compare ma mb).
    destruct sa, sb; try (split; [discriminate|intros [H _]; discriminate]).
    + destruct (Z.compare_spec ea eb) as [He|He|He];
        try (split; [discriminate|intros [_ [_ H]]; lia]).
      destruct (Pos.compare_spec ma mb) as [Hm|Hm|Hm]; simpl;
        try (split; [discriminate|intros [_ [H _]]; lia]).
      subst. tauto.
    + destruct (Z.compare_spec ea eb) as [He|He|He];
        try (split; [discriminate|intros [_ [_ H]]; lia]).
      destruct (Pos.compare_spec ma mb) as [Hm|Hm|Hm]; simpl;
        try (split; [discriminate|intros [_ [H _]]; lia]).
      subst. tauto.
Qed.

Lemma same_number_sym (a b : spec_float) : same_number a b -> same_number b a.
Proof.
  destruct a, b; simpl; try tauto; try congruence.
  intros [-> [-> ->]]. auto.
Qed.

Lemma same_number_trans (a b c : spec_float) :
  same_number a b -> same_number b c -> same_number a c.
Proof.
  destruct a, b, c; simpl; try tauto; try congruence.
  intros [-> [-> ->]] [-> [-> ->]]. auto.
Qed.

(** [==] on dictionary keys is symmetric and transitive. *)
Lemma cell_eqb_sym (a b : cell) : cell_eqb a b = true -> cell_eqb b a = true.
Proof.
  destruct a as [|x|s o], b as [|y|t o']; simpl; try discriminate; trivial.
  - rewrite !FloatAxioms.eqb_spec. intro H. apply SFeqb_same.
    apply same_number_sym. now apply SFeqb_same.
  - now rewrite String.eqb_sym.
Qed.

Lemma cell_eqb_trans (a b c : cell) :
  cell_eqb a b = true -> cell_eqb b c = true -> cell_eqb a c = true.
Proof.
  destruct a as [|x|s o], b as [|y|t o'], c as [|z|u o'']; simpl;
    try discriminate; trivial.
  - rewrite !FloatAxioms.eqb_spec. intros H1 H2. apply SFeqb_same.
    apply (same_number_trans _ (Prim2SF y)); now apply SFeqb_same.
  - intros E1 E2. apply String.eqb_eq in E1, E2. subst. apply String.eqb_refl.
Qed.

Lemma cell_eqb_same (k0 k k' : cell) :
  cell_eqb k0 k = true -> cell_eqb k0 k' = cell_eqb k k'.
Proof.
  intro E.
  destruct (cell_eqb k k') eqn:E1.
  - exact (cell_eqb_trans _ _ _ E E1).
  - destruct (cell_eqb k0 k') eqn:E2; [|reflexivity].
    pose proof (cell_eqb_trans _ _ _ (cell_eqb_sym _ _ E) E2). congruence.
Qed.

Lemma cell_eqb_other (k0 k k' : cell) :
  cell_eqb k0 k = false -> cell_eqb k0 k' = true -> cell_eqb k k' = false.
Proof.
  intros E E'. destruct (cell_eqb k k') eqn:E1; [|reflexivity].
  pose proof (cell_eqb_trans _ _ _ E' (cell_eqb_sym _ _ E1)). congruence.
Qed.

Lemma cell_eqb_same_r (a b k : cell) :
  cell_eqb a b = true -> cell_eqb k a = cell_eqb k b.
Proof.
  intro E.
  destruct (cell_eqb k a) eqn:E1, (cell_eqb k b) eqn:E2; trivial.
  - pose proof (cell_eqb_trans _ _ _ E1 E). congruence.
  - pose proof (cell_eqb_trans _ _ _ E2 (cell_eqb_sym _ _ E)). congruence.
Qed.

(** Reading a name after a write. *)
Lemma dict_get_set (d : summaries) (k k' : cell) (v : summary float) :
  dict_get (dict_set d k v) k'
  = if cell_eqb k k' then Some v else dict_get d k'.
Proof.
  induction d as [|[k0 v0] d IH]; simpl.
  - reflexivity.
  - destruct (cell_eqb k0 k) eqn:E; simpl.
    + rewrite (cell_eqb_same k0 k k' E).
      destruct (cell_eqb k k'); reflexivity.
    + destruct (cell_eqb k0 k') eqn:E'.
      * now rewrite (cell_eqb_other k0 k k' E E').
      * exact IH.
Qed.

Lemma find_snoc {A} (f : A -> bool) (l : list A) (a : A) :
  find f (l ++ [a])
  = match find f l with
    | Some x => Some x
    | None => if f a then Some a else None
    end.
Proof.
  induction l as [|x l IH]; simpl; [reflexivity|].
  destruct (f x); [reflexivity|exact IH].
Qed.

Lemma find_same {A} (f g : A -> bool) (l : list A) :
  (forall x, f x = g x) -> find f l = find g l.
Proof.
  intro H. induction l as [|x l IH]; simpl; [reflexivity|].
  rewrite H, IH. reflexivity.
Qed.

Lemma find_app {A} (f : A -> bool) (l1 l2 : list A) :
  find f (l1 ++ l2)
  = match find f l1 with
    | Some x => Some x
    | None => find f l2
    end.
Proof.
  induction l1 as [|x l1 IH]; simpl; [reflexivity|].
  destruct (f x); [reflexivity|exact IH].
Qed.

(** [student_summaries] holds, under a name, the summary of the last chart
    of that name. *)
Lemma summaries_last (cs : list chart) (k : cell) :
  forall d : summaries,
    dict_get (fold_left (fun d c => dict_set d (student c) (chart_summary c)) cs d) k
    = match last_chart cs k with
      | Some c => Some (chart_summary c)
      | None => dict_get d k
      end.
Proof.
  unfold last_chart.
  induction cs as [|c cs IH]; intro d; simpl; [reflexivity|].
  rewrite IH, find_snoc, dict_get_set.
  destruct (find _ (rev cs)); [reflexivity|].
  destruct (cell_eqb (student c) k); reflexivity.
Qed.

Lemma dict_set_keys (d : summaries) (k : cell) (v : summary float) :
  map fst (dict_set d k v)
  = if existsb (fun k' => cell_eqb k' k) (map fst d)
    then map fst d else map fst d ++ [k].
Proof.
  induction d as [|[k0 v0] d IH]; simpl; [reflexivity|].
  destruct (cell_eqb k0 k); simpl; [reflexivity|].
  rewrite IH. now destruct (existsb _ (map fst d)).
Qed.

Lemma distinct_cells_snoc (ks : list cell) (k : cell) :
  distinct_cells ks ->
  existsb (fun k' => cell_eqb k' k) ks = false ->
  distinct_cells (ks ++ [k]).
Proof.
  induction ks as [|k0 ks IH]; simpl; [auto|].
  intros [Hk0 Hks] He. apply orb_false_elim in He. destruct He as [H0 He].
  split; [|now apply IH].
  apply Forall_app. split; [exact Hk0|]. constructor; [exact H0|constructor].
Qed.

Lemma dict_set_distinct (d : summaries) (k : cell) (v : summary float) :
  distinct_keys d -> distinct_keys (dict_set d k v).
Proof.
  unfold distinct_keys. intro H. rewrite dict_set_keys.
  destruct (existsb _ (map fst d)) eqn:E; [exact H|].
  now apply distinct_cells_snoc.
Qed.

Lemma dict_set_length (d : summaries) (k : cell) (v : summary float) :
  length (dict_set d k v) <= S (length d).
Proof.
  induction d as [|[k0 v0] d IH]; simpl; [lia|].
  destruct (cell_eqb k0 k); simpl; lia.
Qed.

Lemma summaries_fold_invariant (cs : list chart) :
  forall d : summaries,
    distinct_keys d ->
    let d' := fold_left (fun d c => dict_set d (student c) (chart_summary c)) cs d in
    distinct_keys d' /\ length d' <= length d + length cs.
Proof.
  induction cs as [|c cs IH]; intros d Hd; simpl; [split; [exact Hd|lia]|].
  destruct (IH (dict_set d (student c) (chart_summary c))
              (dict_set_distinct d _ _ Hd)) as [H1 H2].
  split; [exact H1|].
  pose proof (dict_set_length d (student c) (chart_summary c)). simpl in H2. lia.
Qed.

Lemma filter_none {A} (f : A -> bool) (l : list A) :
  Forall (fun x => f x = false) l -> filter f l = [].
Proof.
  induction 1 as [|x l Hx _ IH]; simpl; [reflexivity|]. now rewrite Hx.
Qed.

(** In a dictionary without equal keys, the entry a name is read from is
    the only entry under that name. *)
Lemma entries_of_get (d : summaries) (name : cell) (v : summary float) :
  distinct_keys d ->
  dict_get d name = Some v ->
  exists k, entries_of d name = [(k, v)].
Proof.
  unfold distinct_keys, entries_of.
  induction d as [|[k0 v0] d IH]; simpl; [discriminate|].
  intros [Hk0 Hd] Hget.
  destruct (cell_eqb k0 name) eqn:E.
  - injection Hget as <-. exists k0. f_equal.
    apply filter_none. apply Forall_map in Hk0.
    eapply Forall_impl; [|exact Hk0]. intros [k1 v1] H1. simpl in *.
    destruct (cell_eqb k1 name) eqn:E1; [|reflexivity].
    pose proof (cell_eqb_trans _ _ _ E (cell_eqb_sym _ _ E1)). congruence.
  - now apply IH.
Qed.

(** C5 as stated fails: two rows named Ann, with 50 and with 90, give two
    charts and one entry of [student_summaries], which holds the statistics
    of the second row; those of the first row are in no entry. *)
Lemma same_name_one_summary :
  exists charts sums,
    process_data_and_create_charts quiet same_name one_subject_format
    = Ok (charts, sums)
    /\ map (fun c => (student c, average (chart_summary c))) charts
       = [(word "Ann", 50%float); (word "Ann", 90%float)]
    /\ map (fun e => (fst e, average (snd e))) sums = [(word "Ann", 90%float)].
Proof.
  eexists. eexists. split; [reflexivity|]. split; reflexivity.
Qed.

(** The same with the number 1001 as the name of both students. *)
Example same_number_one_summary :
  exists charts sums,
    process_data_and_create_charts quiet same_number_name one_subject_format
    = Ok (charts, sums)
    /\ map (fun c => (student c, average (chart_summary c))) charts
       = [(Num 1001, 50%float); (Num 1001, 90%float)]
    /\ map (fun e => (fst e, average (snd e))) sums = [(Num 1001, 90%float)].
Proof.
  eexists. eexists. split; [reflexivity|]. split; reflexivity.
Qed.

(** C5, amended: two rows with the same student name (two equal texts or
    two equal numbers alike) that each yield a chart when processed alone
    yield, in a run on a table that holds them, those same two charts, each
    with the statistics of its own row and in the order of the rows.
    [student_summaries], which is keyed by the name, has exactly one entry
    under that name; it holds the summary of the last chart of that name,
    which comes from the second row or from a later one, so the statistics
    of the first row are written over there.  Under every name the
    dictionary holds the summary of the last chart of that name. *)
Theorem same_name_rows_keep_their_charts R df fmt charts sums pre row1 mid row2 post
    c1 c2 :
  process_data_and_create_charts R df fmt = Ok (charts, sums) ->
  rows df = pre ++ row1 :: mid ++ row2 :: post ->
  charts_of (process_data_and_create_charts R (alone (columns df) row1) fmt) = [c1] ->
  charts_of (process_data_and_create_charts R (alone (columns df) row2) fmt) = [c2] ->
  cell_eqb (student c1) (student c2) = true ->
  exists l1 l2 l3 c_last k,
    charts = l1 ++ c1 :: l2 ++ c2 :: l3
    /\ chart_summary c1 = summarize (subjects c1) (scores c1)
    /\ chart_summary c2 = summarize (subjects c2) (scores c2)
    /\ In c_last (c2 :: l3)
    /\ last_chart charts (student c1) = Some c_last
    /\ last_chart charts (student c2) = Some c_last
    /\ entries_of sums (student c1) = [(k, chart_summary c_last)]
    /\ entries_of sums (student c2) = [(k, chart_summary c_last)]
    /\ distinct_keys sums
    /\ forall name,
        dict_get sums name = option_map chart_summary (last_chart charts name).
Proof.
  intros H Hrows H1 H2 Hsame.
  pose proof (charts_flat_map _ _ _ _ _ H) as Hc.
  assert (Hin : forall c, In c charts ->
                          chart_summary c = summarize (subjects c) (scores c)).
  { intros c Hin. now destruct (chart_from_row _ _ _ _ _ _ H Hin)
      as [row [_ [_ [_ [_ [Hs _]]]]]]. }
  rewrite Hrows in Hc.
  rewrite flat_map_app in Hc. simpl in Hc.
  rewrite flat_map_app in Hc. simpl in Hc.
  rewrite H1, H2 in Hc. simpl in Hc.
  set (f := fun row => charts_of (process_data_and_create_charts R
                                    (alone (columns df) row) fmt)) in Hc.
  set (l1 := flat_map f pre) in Hc. set (l2 := flat_map f mid) in Hc.
  set (l3 := flat_map f post) in Hc.
  assert (Hget : forall name,
             dict_get sums name = option_map chart_summary (last_chart charts name)).
  { intro name.
    destruct (String.eqb_spec (format fmt) "paired") as [Hf|Hf].
    - destruct (process_paired_Ok _ _ _ _ _ Hf H) as [outs [_ [Ec Es]]].
      rewrite Es, <- Ec, summaries_last.
      destruct (last_chart charts name); reflexivity.
    - rewrite process_not_paired in H by assumption. injection H as <- <-.
      reflexivity. }
  assert (Hdist : distinct_keys sums).
  { destruct (String.eqb_spec (format fmt) "paired") as [Hf|Hf].
    - destruct (process_paired_Ok _ _ _ _ _ Hf H) as [outs [_ [_ ->]]].
      apply (summaries_fold_invariant (somes outs) [] I).
    - rewrite process_not_paired in H by assumption. injection H as <- <-.
      exact I. }
  assert (Hsame' : forall c, cell_eqb (student c) (student c1)
                             = cell_eqb (student c) (student c2)).
  { intro c. now apply cell_eqb_same_r. }
  assert (Hlast : exists c_last,
             In c_last (c2 :: l3) /\ last_chart charts (student c2) = Some c_last).
  { unfold last_chart. rewrite Hc.
    rewrite rev_app_distr. simpl rev. rewrite rev_app_distr. simpl rev.
    rewrite <- !app_assoc. rewrite find_app.
    destruct (find (fun c => cell_eqb (student c) (student c2)) (rev l3))
      as [c|] eqn:E.
    - exists c. split; [|reflexivity].
      apply find_some in E. right. apply in_rev. tauto.
    - exists c2. split; [left; reflexivity|]. simpl.
      now rewrite (cell_eqb_trans _ _ _ (cell_eqb_sym _ _ Hsame) Hsame). }
  destruct Hlast as [c_last [Hin_last Hl2]].
  assert (Hl1 : last_chart charts (student c1) = Some c_last).
  { rewrite <- Hl2. unfold last_chart. apply find_same. exact Hsame'. }
  assert (He2 : exists k, entries_of sums (student c2) = [(k, chart_summary c_last)]).
  { apply entries_of_get; [exact Hdist|]. now rewrite Hget, Hl2. }
  destruct He2 as [k He2].
  exists l1, l2, l3, c_last, k.
  split; [exact Hc|].
  split; [apply Hin; rewrite Hc; apply in_or_app; right; simpl; auto|].
  split.
  { apply Hin. rewrite Hc. apply in_or_app. right. simpl. right.
    apply in_or_app. right. simpl. auto. }
  split; [exact Hin_last|]. split; [exact Hl1|]. split; [exact Hl2|].
  split; [|split; [exact He2|split; [exact Hdist|exact Hget]]].
  rewrite <- He2. unfold entries_of. apply filter_ext.
  intros [k' v']. simpl. now apply cell_eqb_same_r.
Qed.

(** Ann twice: both charts are returned, the one summary under the name is
    the second one. *)
Lemma same_name_rows_keep_their_charts_ann :
  process_data_and_create_charts quiet same_name one_subject_format
  = Ok ([chart_of_one "Ann" 50; chart_of_one "Ann" 90],
        [(word "Ann", chart_summary (chart_of_one "Ann" 90))])
  /\ exists l1 l2 l3 c_last k,
      [chart_of_one "Ann" 50; chart_of_one "Ann" 90]
      = l1 ++ chart_of_one "Ann" 50 :: l2 ++ chart_of_one "Ann" 90 :: l3
      /\ chart_summary (chart_of_one "Ann" 50)
         = summarize (subjects (chart_of_one "Ann" 50)) (scores (chart_of_one "Ann" 50))
      /\ chart_summary (chart_of_one "Ann" 90)
         = summarize (subjects (chart_of_one "Ann" 90)) (scores (chart_of_one "Ann" 90))
      /\ In c_last (chart_of_one "Ann" 90 :: l3)
      /\ last_chart [chart_of_one "Ann" 50; chart_of_one "Ann" 90]
           (student (chart_of_one "Ann" 50))
         = Some c_last
      /\ last_chart [chart_of_one "Ann" 50; chart_of_one "Ann" 90]
           (student (chart_of_one "Ann" 90))
         = Some c_last
      /\ entries_of [(word "Ann", chart_summary (chart_of_one "Ann" 90))]
           (student (chart_of_one "Ann" 50))
         = [(k, chart_summary c_last)]
      /\ entries_of [(word "Ann", chart_summary (chart_of_one "Ann" 90))]
           (student (chart_of_one "Ann" 90))
         = [(k, chart_summary c_last)]
      /\ distinct_keys [(word "Ann", chart_summary (chart_of_one "Ann" 90))]
      /\ forall name,
          dict_get [(word "Ann", chart_summary (chart_of_one "Ann" 90))] name
          = option_map chart_summary
              (last_chart [chart_of_one "Ann" 50; chart_of_one "Ann" 90] name).
Proof.
  split; [reflexivity|].
  apply (same_name_rows_keep_their_charts quiet same_name one_subject_format
           [chart_of_one "Ann" 50; chart_of_one "Ann" 90]
           [(word "Ann", chart_summary (chart_of_one "Ann" 90))]
           [] ann_50 [] ann_90 []);
    reflexivity.
Defined.

(* ------------------------------------------------------------------ *)
(** ** Scores that are not numbers *)
(* ------------------------------------------------------------------ *)

Lemma pair_up_columns (l : list label) :
  Forall (fun pair => In (fst (fst pair)) l /\ In (snd (fst pair)) l) (pair_up l).
Proof.
  assert (H : Forall (fun pair => In (fst (fst pair)) l /\ In (snd (fst pair)) l)
                (pair_up l)
              /\ forall a, Forall (fun pair => In (fst (fst pair)) (a :: l)
                                               /\ In (snd (fst pair)) (a :: l))
                             (pair_up (a :: l))).
  { induction l as [|b l [IH1 IH2]].
    - split; [constructor|]. intro a. constructor.
    - split; [apply IH2|]. intro a. simpl. constructor.
      + simpl. auto.
      + eapply Forall_impl; [|exact IH1]. simpl. intros pair [H1 H2]. auto. }
  apply H.
Qed.

(** A mapping that [validate_data] returns is paired and names columns of
    the table. *)
Lemma validate_data_Some df errors fmt :
  validate_data df = Ok (errors, Some fmt) ->
  errors = [] /\ format fmt = "paired" /\ valid_mapping (columns df) fmt
  /\ 3 <= length (columns df)
  /\ fmt = paired (nth 0 (columns df) (Text "")) (pair_up (tl (columns df))).
Proof.
  intro Hv.
  destruct (validate_data_cases df)
    as [[_ H]|[[_ [_ H]]|[[_ [Hc [_ [_ H]]]]|[_ [_ [_ H]]]]]];
    rewrite H in Hv; try discriminate.
  injection Hv as <- <-. split; [reflexivity|]. split; [reflexivity|].
  split; [|split; [exact Hc|reflexivity]].
  unfold valid_mapping. simpl.
  destruct (columns df) as [|c0 trailing]; [simpl in Hc; lia|]. simpl.
  split; [auto|].
  eapply Forall_impl; [|apply pair_up_columns]. simpl. intros p [H1 H2]. auto.
Qed.

Lemma rejects_true cols row pair p e :
  both_present cols row pair = true ->
  getitem cols row (snd (fst pair)) = Ok p ->
  float_of_cell p = Raise e ->
  rejects cols row pair = true.
Proof.
  intros Hb Hp Hf. unfold rejects. now rewrite Hb, Hp, Hf.
Qed.

Lemma extract_pair_raises cols row acc pair e :
  length cols <= length row ->
  In (fst (fst pair)) cols -> In (snd (fst pair)) cols ->
  extract_pair cols row acc pair = Raise e ->
  both_present cols row pair = true
  /\ exists p, getitem cols row (snd (fst pair)) = Ok p /\ float_of_cell p = Raise e.
Proof.
  destruct pair as [[subject_col percentage_col] flag]. simpl.
  intros Hlen Hs Hp. unfold extract_pair, both_present. simpl.
  destruct (getitem_In cols row subject_col Hs Hlen) as [s ->].
  destruct (getitem_In cols row percentage_col Hp Hlen) as [p ->]. simpl.
  destruct (notna s); [|discriminate]. simpl.
  destruct (notna p); [|discriminate].
  destruct (float_of_cell p) as [x|e'] eqn:F; simpl; [discriminate|].
  intros [= <-]. split; [reflexivity|]. now exists p.
Qed.

Lemma extract_pair_rejected cols row acc pair p e :
  both_present cols row pair = true ->
  getitem cols row (snd (fst pair)) = Ok p ->
  float_of_cell p = Raise e ->
  extract_pair cols row acc pair = Raise e.
Proof.
  destruct pair as [[subject_col percentage_col] flag]. simpl.
  unfold extract_pair, both_present. simpl.
  destruct (getitem cols row subject_col) as [s|]; [|discriminate]. simpl.
  intros Hb Hp Hf. rewrite Hp in *. simpl.
  apply andb_prop in Hb. destruct Hb as [-> ->]. now rewrite Hf.
Qed.

Lemma extract_pair_accepts cols row acc pair :
  length cols <= length row ->
  In (fst (fst pair)) cols -> In (snd (fst pair)) cols ->
  rejects cols row pair = false ->
  exists acc', extract_pair cols row acc pair = Ok acc'.
Proof.
  intros Hlen Hs Hp Hr.
  destruct (extract_pair cols row acc pair) as [acc'|e] eqn:E; [eauto|exfalso].
  destruct (extract_pair_raises _ _ _ _ _ Hlen Hs Hp E) as [Hb [p [Hg Hf]]].
  rewrite (rejects_true _ _ _ _ _ Hb Hg Hf) in Hr. discriminate.
Qed.

Lemma extract_loop_raises cols row pairs e :
  length cols <= length row ->
  Forall (fun pair => In (fst (fst pair)) cols /\ In (snd (fst pair)) cols) pairs ->
  forall acc,
    for_each (extract_pair cols row) pairs acc = Raise e ->
    exists pair p,
      In pair pairs /\ both_present cols row pair = true
      /\ getitem cols row (snd (fst pair)) = Ok p /\ float_of_cell p = Raise e.
Proof.
  intros Hlen Hv. induction Hv as [|pair pairs [Hs Hp] _ IH]; intros acc H;
    simpl in H; [discriminate|].
  destruct (extract_pair cols row acc pair) as [acc'|e'] eqn:E; simpl in H.
  - destruct (IH _ H) as [pair' [p [Hin Hrest]]].
    exists pair', p. simpl. auto.
  - injection H as ->.
    destruct (extract_pair_raises _ _ _ _ _ Hlen Hs Hp E) as [Hb [p [Hg Hf]]].
    exists pair, p. simpl. auto.
Qed.

(** The inner loop raises at the first pair it rejects. *)
Lemma extract_loop_first cols row before pair after p e :
  length cols <= length row ->
  Forall (fun q => In (fst (fst q)) cols /\ In (snd (fst q)) cols) before ->
  Forall (fun q => rejects cols row q = false) before ->
  both_present cols row pair = true ->
  getitem cols row (snd (fst pair)) = Ok p ->
  float_of_cell p = Raise e ->
  forall acc,
    for_each (extract_pair cols row) (before ++ pair :: after) acc = Raise e.
Proof.
  intros Hlen Hv Hr Hb Hp Hf.
  induction before as [|q before IH]; intro acc; simpl.
  - now rewrite (extract_pair_rejected _ _ acc _ _ _ Hb Hp Hf).
  - inversion Hv as [|? ? [Hs Hq] Hv']; subst.
    inversion Hr as [|? ? Hrq Hr']; subst.
    destruct (extract_pair_accepts cols row acc q Hlen Hs Hq Hrq) as [acc' ->].
    simpl. now apply IH.
Qed.

Lemma extract_loop_rejected cols row pairs pair p e :
  In pair pairs ->
  both_present cols row pair = true ->
  getitem cols row (snd (fst pair)) = Ok p ->
  float_of_cell p = Raise e ->
  forall acc, exists e', for_each (extract_pair cols row) pairs acc = Raise e'.
Proof.
  intros Hin Hb Hp Hf. induction pairs as [|pair0 pairs IH]; intro acc; [easy|].
  simpl. destruct (extract_pair cols row acc pair0) as [acc'|e'] eqn:E; simpl.
  - destruct Hin as [->|Hin]; [|now apply IH].
    rewrite (extract_pair_rejected _ _ _ _ _ _ Hb Hp Hf) in E. discriminate.
  - now exists e'.
Qed.

Lemma row_chart_raises cols fmt row e :
  length cols <= length row ->
  valid_mapping cols fmt ->
  row_chart cols fmt row = Raise e ->
  exists pair p,
    In pair (subject_percentage_pairs fmt) /\ both_present cols row pair = true
    /\ getitem cols row (snd (fst pair)) = Ok p /\ float_of_cell p = Raise e.
Proof.
  intros Hlen [Hname Hpairs]. unfold row_chart.
  destruct (getitem_In cols row (student_col fmt) Hname Hlen) as [name ->].
  simpl.
  destruct (for_each _ _ _) as [lists|e'] eqn:E; simpl; [discriminate|].
  intros [= <-]. exact (extract_loop_raises _ _ _ _ Hlen Hpairs _ E).
Qed.

Lemma row_chart_rejected cols fmt row pair p e :
  In pair (subject_percentage_pairs fmt) ->
  both_present cols row pair = true ->
  getitem cols row (snd (fst pair)) = Ok p ->
  float_of_cell p = Raise e ->
  exists e', row_chart cols fmt row = Raise e'.
Proof.
  intros Hin Hb Hp Hf. unfold row_chart.
  destruct (getitem cols row (student_col fmt)) as [name|e0]; simpl; [|eauto].
  destruct (extract_loop_rejected _ _ _ _ _ _ Hin Hb Hp Hf ([], [])) as [e' ->].
  simpl. eauto.
Qed.

Lemma row_chart_first cols fmt row before pair after p e :
  length cols <= length row ->
  valid_mapping cols fmt ->
  subject_percentage_pairs fmt = before ++ pair :: after ->
  Forall (fun q => rejects cols row q = false) before ->
  both_present cols row pair = true ->
  getitem cols row (snd (fst pair)) = Ok p ->
  float_of_cell p = Raise e ->
  row_chart cols fmt row = Raise e.
Proof.
  intros Hlen [Hname Hpairs] Hsplit Hr Hb Hp Hf. unfold row_chart.
  destruct (getitem_In cols row (student_col fmt) Hname Hlen) as [name ->].
  simpl. rewrite Hsplit in *.
  apply Forall_app in Hpairs. destruct Hpairs as [Hbefore _].
  now rewrite (extract_loop_first _ _ _ _ _ _ _ Hlen Hbefore Hr Hb Hp Hf).
Qed.

Lemma row_drawn_raises R cols fmt row e :
  row_drawn R cols fmt row = Raise e ->
  row_chart cols fmt row = Raise e
  \/ exists c, row_chart cols fmt row = Ok (Some c) /\ draw R c = Raise e.
Proof.
  unfold row_drawn.
  destruct (row_chart cols fmt row) as [[c|]|e0]; simpl; try discriminate.
  - destruct (draw R c) as [[]|e1] eqn:D; simpl; [discriminate|].
    intros [= <-]. right. now exists c.
  - intros [= <-]. now left.
Qed.

Lemma rows_loop_raises R cols fmt rows e :
  forall state,
    for_each (process_row R cols fmt) rows state = Raise e ->
    exists row, In row rows /\ row_drawn R cols fmt row = Raise e.
Proof.
  induction rows as [|row rows IH]; intros state H; simpl in H; [discriminate|].
  rewrite process_row_drawn in H.
  destruct (row_drawn R cols fmt row) as [o|e'] eqn:E; simpl in H.
  - destruct (IH _ H) as [row' [Hin Hr]]. exists row'. simpl. auto.
  - injection H as ->. exists row. simpl. auto.
Qed.

Lemma rows_loop_rejected R cols fmt rows row e :
  In row rows ->
  row_drawn R cols fmt row = Raise e ->
  forall state, exists e', for_each (process_row R cols fmt) rows state = Raise e'.
Proof.
  intros Hin Hr. induction rows as [|row0 rows IH]; intro state; [easy|].
  simpl. rewrite process_row_drawn.
  destruct (row_drawn R cols fmt row0) as [o|e'] eqn:E; simpl; [|eauto].
  destruct Hin as [->|Hin]; [congruence|now apply IH].
Qed.

(** The rows before the first rejected cell raise only when a figure
    cannot be drawn. *)
Lemma rows_before_raise R cols fmt rows e :
  valid_mapping cols fmt ->
  Forall (fun row => length cols <= length row) rows ->
  Forall (fun row => Forall (fun q => rejects cols row q = false)
                       (subject_percentage_pairs fmt)) rows ->
  forall state,
    for_each (process_row R cols fmt) rows state = Raise e ->
    exists row c,
      In row rows /\ row_chart cols fmt row = Ok (Some c) /\ draw R c = Raise e.
Proof.
  intros Hvalid Hwidth Hclean state H.
  destruct (rows_loop_raises _ _ _ _ _ _ H) as [row [Hrow Hd]].
  destruct (row_drawn_raises _ _ _ _ _ Hd) as [Hc|[c [Hc Hdraw]]].
  - exfalso. rewrite Forall_forall in Hwidth, Hclean.
    destruct (row_chart_raises _ _ _ _ (Hwidth _ Hrow) Hvalid Hc)
      as [pair [p [Hpair [Hb [Hp Hf]]]]].
    pose proof (Hclean _ Hrow) as Hq. rewrite Forall_forall in Hq.
    specialize (Hq pair Hpair).
    rewrite (rejects_true _ _ _ _ _ Hb Hp Hf) in Hq. discriminate.
  - exists row, c. auto.
Qed.

(** C7 as stated fails: the text "abc" in Ann's percentage cell is not a
    number, yet the run does not abort, because Ann's subject cell is
    missing and the pair is skipped: the run returns Bob's chart. *)
Lemma text_beside_missing_no_abort :
  getitem (columns text_beside_missing) [word "Ann"; NA; word "abc"] (Text "Percentage")
  = Ok (word "abc")
  /\ notna (word "abc") = true
  /\ float_of_cell (word "abc")
     = Raise (ValueError "could not convert string to float: 'abc'")
  /\ main quiet text_beside_missing (Ok None)
     = ([], Generated [chart_of_one "Bob" 90]
              [(word "Bob", chart_summary (chart_of_one "Bob" 90))]).
Proof.
  repeat split.
Qed.

(** C7, amended: take the first cell the loops reject, row by row and pair
    by pair: a percentage cell that is not missing, that [float()] cannot
    coerce, and whose subject cell is not missing either.  Then the run on
    the detected mapping raises, no list of charts is returned, and the
    script shows one message, that of the exception raised: the exception
    of [float()] on that cell, unless the figure of an earlier row cannot
    be drawn, in which case it is the exception of the drawing. *)
Theorem non_numeric_score_aborts R df fmt errors manual
    pre row post before pair after p e :
  validate_data df = Ok (errors, Some fmt) ->
  Forall (fun row => length (columns df) <= length row) (rows df) ->
  rows df = pre ++ row :: post ->
  Forall (fun row' => Forall (fun q => rejects (columns df) row' q = false)
                        (subject_percentage_pairs fmt)) pre ->
  subject_percentage_pairs fmt = before ++ pair :: after ->
  Forall (fun q => rejects (columns df) row q = false) before ->
  both_present (columns df) row pair = true ->
  getitem (columns df) row (snd (fst pair)) = Ok p ->
  float_of_cell p = Raise e ->
  exists e',
    process_data_and_create_charts R df fmt = Raise e'
    /\ main R df manual = ([], Failed e')
    /\ (e' = e
        \/ exists row' c,
            In row' pre
            /\ row_chart (columns df) fmt row' = Ok (Some c)
            /\ draw R c = Raise e')
    /\ ((forall row' c,
            In row' pre -> row_chart (columns df) fmt row' = Ok (Some c) ->
            draw R c = Ok tt) ->
        e' = e).
Proof.
  intros Hv Hwidth Hrows Hclean Hsplit Hbefore Hb Hp Hf.
  destruct (validate_data_Some _ _ _ Hv) as [-> [Hfmt [Hvalid _]]].
  rewrite Hrows in Hwidth. apply Forall_app in Hwidth.
  destruct Hwidth as [Hwpre Hwrow]. inversion Hwrow as [|? ? Hlen _]; subst.
  pose proof (row_chart_first _ _ _ _ _ _ _ _ Hlen Hvalid Hsplit Hbefore Hb Hp Hf)
    as Hrow.
  assert (Hrun : exists e',
             process_data_and_create_charts R df fmt = Raise e'
             /\ (e' = e
                 \/ exists row' c,
                     In row' pre
                     /\ row_chart (columns df) fmt row' = Ok (Some c)
                     /\ draw R c = Raise e')
             /\ ((forall row' c,
                     In row' pre -> row_chart (columns df) fmt row' = Ok (Some c) ->
                     draw R c = Ok tt) ->
                 e' = e)).
  { unfold process_data_and_create_charts.
    rewrite Hfmt, String.eqb_refl, Hrows, for_each_app.
    destruct (for_each (process_row R (columns df) fmt) pre ([], []))
      as [state|e'] eqn:Epre; cbn [bind].
    - exists e. cbn [for_each]. rewrite process_row_drawn. unfold row_drawn.
      rewrite Hrow. cbn [bind]. auto.
    - exists e'. split; [reflexivity|].
      destruct (rows_before_raise _ _ _ _ _ Hvalid Hwpre Hclean _ Epre)
        as [row' [c [Hin [Hc Hd]]]].
      split; [right; exists row', c; auto|].
      intro Hall. rewrite (Hall row' c Hin Hc) in Hd. discriminate. }
  destruct Hrun as [e' [Hrun Hwhich]].
  exists e'. split; [exact Hrun|]. split; [|exact Hwhich].
  unfold main. rewrite Hv. cbn. now rewrite Hrun.
Qed.

(** The text "abc" beside a present subject: Bob's row comes first and his
    figure is drawn, then the run fails with the message of [float()]. *)
Lemma non_numeric_score_aborts_abc :
  main quiet text_beside_present (Ok None)
  = ([], Failed (ValueError "could not convert string to float: 'abc'"))
  /\ exists e',
      process_data_and_create_charts quiet text_beside_present one_subject_format
      = Raise e'
      /\ main quiet text_beside_present (Ok None) = ([], Failed e')
      /\ (e' = ValueError "could not convert string to float: 'abc'"
          \/ exists row' c,
              In row' [[word "Bob"; Num 1; Num 90]]
              /\ row_chart (columns text_beside_present) one_subject_format row'
                 = Ok (Some c)
              /\ draw quiet c = Raise e')
      /\ ((forall row' c,
              In row' [[word "Bob"; Num 1; Num 90]] ->
              row_chart (columns text_beside_present) one_subject_format row'
              = Ok (Some c) ->
              draw quiet c = Ok tt) ->
          e' = ValueError "could not convert string to float: 'abc'").
Proof.
  split; [reflexivity|].
  apply (non_numeric_score_aborts quiet text_beside_present one_subject_format
           [] (Ok None)
           [[word "Bob"; Num 1; Num 90]] [word "Ann"; Num 1; word "abc"] []
           [] (Text "Maths", Text "Percentage", true) []
           (word "abc") (ValueError "could not convert string to float: 'abc'")).
  - reflexivity.
  - for_all ltac:(simpl; lia).
  - reflexivity.
  - for_all ltac:(for_all ltac:(reflexivity)).
  - reflexivity.
  - apply Forall_nil.
  - reflexivity.
  - reflexivity.
  - reflexivity.
Defined.

(** When Bob's figure cannot be drawn, the run fails on it before the text
    "abc" is met. *)
Example drawing_fails_first :
  process_data_and_create_charts
    (stumbling "Bob" (ValueError "ParseFatalException"))
    text_beside_present one_subject_format
  = Raise (ValueError "ParseFatalException").
Proof. reflexivity. Qed.

(* ------------------------------------------------------------------ *)
(** ** More on the detector *)
(* ------------------------------------------------------------------ *)

(** X1: [validate_data] reports that the file needs at least 3 columns
    exactly when the table has a row and one or two columns; the check of
    the empty table comes first. *)
Theorem validate_data_columns_iff (df : DataFrame) :
  validate_data df = Ok ([msg_columns], None)
  <-> rows df <> [] /\ 1 <= length (columns df) < 3.
Proof.
  destruct (validate_data_cases df)
    as [[E Hv]|[[E [Hc Hv]]|[[E [Hc [_ [_ Hv]]]]|[E [Hc [_ Hv]]]]]];
    rewrite Hv.
  - split; [discriminate|]. intros [Hr [Hc _]].
    assert (empty df = false); [|congruence].
    apply empty_false. split; [exact Hr|].
    destruct (columns df); [simpl in Hc; lia|discriminate].
  - split; [|reflexivity]. intros _. apply empty_false in E.
    destruct E as [Hr Hne]. split; [exact Hr|].
    destruct (columns df); [congruence|simpl in *; lia].
  - split; [discriminate|]. intros [_ H]. lia.
  - split; [discriminate|]. intros [_ H]. lia.
Qed.

(** X2: for every table [validate_data] either returns one message and no
    mapping, or returns no message and a paired mapping with at least one
    pair, or raises the [AttributeError] of [percentage_col.lower()] (line
    75); it raises exactly when the table has a row, at least three columns
    and a percentage header that is not a text, and raises nothing else.
    The message about an undetermined structure (line 88) is returned for
    no table. *)
Theorem validate_data_message_or_mapping (df : DataFrame) :
  ((exists message, validate_data df = Ok ([message], None)
                    /\ (message = msg_empty \/ message = msg_columns))
   \/ (exists fmt, validate_data df = Ok ([], Some fmt)
                   /\ format fmt = "paired"
                   /\ subject_percentage_pairs fmt <> []
                   /\ forallb is_text (percentage_headers (tl (columns df))) = true)
   \/ validate_data df = Raise (AttributeError "lower"))
  /\ (validate_data df = Raise (AttributeError "lower")
      <-> rows df <> [] /\ 3 <= length (columns df)
          /\ forallb is_text (percentage_headers (tl (columns df))) = false)
  /\ (forall e, validate_data df = Raise e -> e = AttributeError "lower")
  /\ (forall errors detected,
         validate_data df = Ok (errors, detected) -> errors <> [msg_undetermined]).
Proof.
  destruct (validate_data_cases df)
    as [[E Hv]|[[E [Hc Hv]]|[[E [Hc [T [Hne Hv]]]]|[E [Hc [T Hv]]]]]];
    rewrite Hv.
  - split; [left; exists msg_empty; auto|].
    split; [|split; [discriminate|intros ? ? [= <- <-]; discriminate]].
    split; [discriminate|]. intros [Hr [Hc _]].
    assert (empty df = false); [|congruence].
    apply empty_false. split; [exact Hr|].
    destruct (columns df); [simpl in Hc; lia|discriminate].
  - split; [left; exists msg_columns; auto|].
    split; [|split; [discriminate|intros ? ? [= <- <-]; discriminate]].
    split; [discriminate|]. intros [_ [H _]]. lia.
  - split; [right; left; eexists; split; [reflexivity|];
            split; [reflexivity|]; split; [exact Hne|exact T]|].
    split; [|split; [discriminate|intros ? ? [= <- <-]; discriminate]].
    split; [discriminate|]. intros [_ [_ H]]. congruence.
  - split; [right; right; reflexivity|].
    split; [|split; [now intros e [= <-]|discriminate]].
    split; [|reflexivity]. intros _. apply empty_false in E.
    destruct E as [Hr _]. auto.
Qed.

Lemma pair_up_flat (l : list label) :
  exists rest,
    l = flat_map (fun pair => [fst (fst pair); snd (fst pair)]) (pair_up l) ++ rest
    /\ length rest <= 1.
Proof.
  assert (H : (exists rest,
                  l = flat_map (fun pair => [fst (fst pair); snd (fst pair)])
                        (pair_up l) ++ rest
                  /\ length rest <= 1)
              /\ forall a, exists rest,
                  a :: l = flat_map (fun pair => [fst (fst pair); snd (fst pair)])
                             (pair_up (a :: l)) ++ rest
                  /\ length rest <= 1).
  { induction l as [|b l [IH1 IH2]].
    - split; [exists []; simpl; auto|]. intro a. exists [a]. simpl. auto.
    - split; [apply IH2|]. intro a. destruct IH1 as [rest [Hl Hr]].
      exists rest. simpl. split; [|exact Hr]. now rewrite <- Hl. }
  apply H.
Qed.

(** X3: the columns of a mapping that [validate_data] returns are, in
    order, the columns of the table, except that the last column is left
    out when it has no partner; so with distinct labels the student column
    and the columns of the pairs are all distinct. *)
Theorem detected_mapping_covers_columns (df : DataFrame) errors fmt :
  validate_data df = Ok (errors, Some fmt) ->
  (exists rest, columns df = mapped_columns fmt ++ rest /\ length rest <= 1)
  /\ (NoDup (columns df) -> NoDup (mapped_columns fmt)).
Proof.
  intro Hv.
  assert (Hrest : exists rest,
             columns df = mapped_columns fmt ++ rest /\ length rest <= 1).
  { destruct (validate_data_Some _ _ _ Hv) as [_ [_ [_ [Hc ->]]]].
    unfold mapped_columns. simpl.
    destruct (columns df) as [|c0 trailing]; [simpl in Hc; lia|]. simpl.
    destruct (pair_up_flat trailing) as [rest [Ht Hr]].
    exists rest. split; [|exact Hr]. now rewrite <- Ht. }
  split; [exact Hrest|].
  destruct Hrest as [rest [Hc _]]. rewrite Hc.
  apply NoDup_app_remove_r.
Qed.

(** Scenario A: the mapping names all five columns. *)
Lemma detected_mapping_covers_scenario_A :
  validate_data scenario_A = Ok ([], Some scenario_A_format)
  /\ (exists rest,
         columns scenario_A = mapped_columns scenario_A_format ++ rest
         /\ length rest <= 1)
  /\ (NoDup (columns scenario_A) -> NoDup (mapped_columns scenario_A_format)).
Proof.
  split; [reflexivity|].
  apply (detected_mapping_covers_columns scenario_A [] scenario_A_format).
  reflexivity.
Defined.

(** X4: [validate_data] reads the labels of the columns and whether there
    is a row, never a cell: two tables with the same labels and at least
    one row each get the same result. *)
Theorem validate_data_ignores_cells (cols : list label) (rows1 rows2 : list (list cell)) :
  rows1 <> [] -> rows2 <> [] ->
  validate_data {| columns := cols; rows := rows1 |}
  = validate_data {| columns := cols; rows := rows2 |}.
Proof.
  intros H1 H2. unfold validate_data, empty. simpl.
  destruct rows1; [congruence|]. destruct rows2; [congruence|]. reflexivity.
Qed.

(** A table of numbers and the same table with texts in the percentage
    column: both are accepted with the same mapping. *)
Lemma validate_data_ignores_cells_text :
  ([[word "Ann"; Num 1; Num 50]] <> []
   /\ [[word "Ann"; Num 1; word "abc"]] <> [])
  /\ validate_data {| columns := one_subject_columns;
                      rows := [[word "Ann"; Num 1; Num 50]] |}
     = validate_data {| columns := one_subject_columns;
                        rows := [[word "Ann"; Num 1; word "abc"]] |}.
Proof.
  split; [split; discriminate|].
  apply validate_data_ignores_cells; discriminate.
Defined.

Lemma prefix_app_l (a b s : string) :
  String.prefix (a ++ b) s = true -> String.prefix a s = true.
Proof.
  revert s. induction a as [|c a IH]; intro s; simpl; [now destruct s|].
  destruct s as [|c' s]; simpl; [discriminate|].
  destruct (ascii_dec c c'); [apply IH|discriminate].
Qed.

Lemma contains_app_l (a b s : string) :
  contains (a ++ b) s = true -> contains a s = true.
Proof.
  induction s as [|c s IH]; cbn [contains]; intro H.
  - destruct (String.prefix (a ++ b) "") eqn:E; [|discriminate H].
    now rewrite (prefix_app_l a b "" E).
  - destruct (String.prefix (a ++ b) (String c s)) eqn:E.
    + now rewrite (prefix_app_l a b _ E).
    + rewrite (IH H). now destruct (String.prefix a (String c s)).
Qed.

(** X5: the flag of a pair says whether the lower-cased header of the
    percentage column contains "percent" or "%"; the term "percentage" of
    [pct_terms] adds nothing. *)
Theorem is_percentage_col_percent (percentage_col : string) :
  is_percentage_col percentage_col
  = contains "percent" (lower percentage_col)
    || contains "%" (lower percentage_col).
Proof.
  unfold is_percentage_col, any, pct_terms. simpl existsb.
  rewrite orb_false_r.
  destruct (contains "percentage" (lower percentage_col)) eqn:E; [|reflexivity].
  change "percentage" with ("percent" ++ "age")%string in E.
  now rewrite (contains_app_l _ _ _ E).
Qed.

(* ------------------------------------------------------------------ *)
(** ** More on the run *)
(* ------------------------------------------------------------------ *)

(** The summaries after the charts [cs], starting from [d]. *)
Lemma add_charts_state outs state :
  fold_left add_chart outs state
  = (fst state ++ somes outs,
     fold_left (fun d c => dict_set d (student c) (chart_summary c))
       (somes outs) (snd state)).
Proof.
  rewrite <- add_charts_fst, <- add_charts_snd.
  now destruct (fold_left add_chart outs state).
Qed.

(** The loop started on a state is the loop started on the empty state,
    continued from that state. *)
Lemma rows_loop_from R cols fmt rows state :
  for_each (process_row R cols fmt) rows state
  = match for_each (process_row R cols fmt) rows ([], []) with
    | Ok (charts, _) =>
        Ok (fst state ++ charts,
            fold_left (fun d c => dict_set d (student c) (chart_summary c))
              charts (snd state))
    | Raise e => Raise e
    end.
Proof.
  revert state. induction rows as [|row rows IH]; intro state.
  - simpl. rewrite app_nil_r. now destruct state.
  - cbn [for_each]. rewrite !process_row_drawn.
    destruct (row_drawn R cols fmt row) as [o|e]; cbn [bind]; [|reflexivity].
    rewrite IH. rewrite (IH (add_chart ([], []) o)).
    destruct (for_each (process_row R cols fmt) rows ([], [])) as [[charts sums]|e];
      [|reflexivity].
    destruct o as [c|]; simpl; [|reflexivity].
    now rewrite <- app_assoc.
Qed.

(** X6: the run on a table whose rows are [rows1 ++ rows2] is the run on
    [rows1] followed by the run on [rows2]: an exception of the first part
    is the result, whatever the second part holds; otherwise an exception
    of the second part is the result; otherwise the charts are those of
    the first part followed by those of the second, and the summaries of
    the second part's charts are written over those of the first. *)
Theorem process_rows_app (R : Renderer) (cols : list label) (fmt : data_format)
    (rows1 rows2 : list (list cell)) :
  process_data_and_create_charts R {| columns := cols; rows := rows1 ++ rows2 |} fmt
  = match process_data_and_create_charts R {| columns := cols; rows := rows1 |} fmt with
    | Raise e => Raise e
    | Ok (charts1, sums1) =>
        match process_data_and_create_charts R {| columns := cols; rows := rows2 |} fmt with
        | Raise e => Raise e
        | Ok (charts2, _) =>
            Ok (charts1 ++ charts2,
                fold_left (fun d c => dict_set d (student c) (chart_summary c))
                  charts2 sums1)
        end
    end.
Proof.
  unfold process_data_and_create_charts. cbn [columns rows].
  destruct (String.eqb (format fmt) "paired"); [|reflexivity].
  rewrite for_each_app.
  destruct (for_each (process_row R cols fmt) rows1 ([], [])) as [[charts1 sums1]|e];
    simpl; [|reflexivity].
  rewrite rows_loop_from.
  destruct (for_each (process_row R cols fmt) rows2 ([], [])) as [[charts2 sums2]|e];
    reflexivity.
Qed.

(* ------------------------------------------------------------------ *)
(** ** The dictionary of summaries *)
(* ------------------------------------------------------------------ *)

Lemma somes_length (outs : list (option chart)) : length (somes outs) <= length outs.
Proof.
  induction outs as [|[c|] outs IH]; simpl; lia.
Qed.

Lemma last_chart_found (cs : list chart) (c : chart) s o :
  In c cs -> student c = Str s o ->
  exists c', In c' cs
             /\ cell_eqb (student c') (Str s o) = true
             /\ last_chart cs (Str s o) = Some c'.
Proof.
  intros Hin Hs. unfold last_chart.
  destruct (find (fun c0 => cell_eqb (student c0) (Str s o)) (rev cs))
    as [c'|] eqn:E.
  - apply find_some in E. destruct E as [Hin' He].
    exists c'. split; [now apply in_rev|]. now split.
  - apply in_rev in Hin. apply (find_none _ _ E) in Hin.
    rewrite Hs in Hin. simpl in Hin. now rewrite String.eqb_refl in Hin.
Qed.

(** X7: a run returns at most one chart per row and at most one summary
    per chart; no two entries of [student_summaries] have equal names; and
    under the text name of every chart there is an entry, which is the
    summary of a chart of that name. *)
Theorem charts_and_summaries_counts R df fmt charts sums :
  process_data_and_create_charts R df fmt = Ok (charts, sums) ->
  length charts <= length (rows df)
  /\ length sums <= length charts
  /\ distinct_keys sums
  /\ forall c s o, In c charts -> student c = Str s o ->
       exists c', In c' charts
                  /\ cell_eqb (student c') (Str s o) = true
                  /\ dict_get sums (Str s o) = Some (chart_summary c').
Proof.
  intro H.
  destruct (String.eqb_spec (format fmt) "paired") as [Hf|Hf].
  - destruct (process_paired_Ok _ _ _ _ _ Hf H) as [outs [HF [-> ->]]].
    pose proof (summaries_fold_invariant (somes outs) [] I) as [Hd Hl].
    split; [|split; [|split]].
    + apply Forall2_length in HF. rewrite HF. apply somes_length.
    + simpl in Hl. exact Hl.
    + exact Hd.
    + intros c s o Hin Hs.
      destruct (last_chart_found _ _ _ _ Hin Hs) as [c' [Hin' [He Hc']]].
      exists c'. rewrite summaries_last, Hc'. auto.
  - rewrite process_not_paired in H by assumption. injection H as <- <-.
    simpl. split; [lia|]. split; [lia|]. split; [exact I|].
    intros c s o [].
Qed.

(** Ann twice: two rows, two charts, one summary. *)
Lemma charts_and_summaries_counts_same_name :
  process_data_and_create_charts quiet same_name one_subject_format
  = Ok ([chart_of_one "Ann" 50; chart_of_one "Ann" 90],
        [(word "Ann", chart_summary (chart_of_one "Ann" 90))])
  /\ length [chart_of_one "Ann" 50; chart_of_one "Ann" 90] <= length (rows same_name)
  /\ length [(word "Ann", chart_summary (chart_of_one "Ann" 90))]
     <= length [chart_of_one "Ann" 50; chart_of_one "Ann" 90]
  /\ distinct_keys [(word "Ann", chart_summary (chart_of_one "Ann" 90))]
  /\ forall c s o,
      In c [chart_of_one "Ann" 50; chart_of_one "Ann" 90] -> student c = Str s o ->
      exists c', In c' [chart_of_one "Ann" 50; chart_of_one "Ann" 90]
                 /\ cell_eqb (student c') (Str s o) = true
                 /\ dict_get [(word "Ann", chart_summary (chart_of_one "Ann" 90))]
                      (Str s o)
                    = Some (chart_summary c').
Proof.
  split; [reflexivity|].
  apply (charts_and_summaries_counts quiet same_name one_subject_format).
  reflexivity.
Defined.

Lemma dict_set_new (d : summaries) (k : cell) (v : summary float) :
  Forall (fun e => cell_eqb (fst e) k = false) d ->
  dict_set d k v = d ++ [(k, v)].
Proof.
  induction 1 as [|[k0 v0] d H0 _ IH]; simpl; [reflexivity|].
  simpl in H0. rewrite H0, IH. reflexivity.
Qed.

Lemma summaries_of_distinct (cs : list chart) :
  forall d : summaries,
    distinct_students cs ->
    Forall (fun e => Forall (fun c => cell_eqb (fst e) (student c) = false) cs) d ->
    fold_left (fun d c => dict_set d (student c) (chart_summary c)) cs d
    = d ++ map (fun c => (student c, chart_summary c)) cs.
Proof.
  unfold distinct_students.
  induction cs as [|c cs IH]; intros d Hcs Hd; simpl.
  - now rewrite app_nil_r.
  - destruct Hcs as [Hc Hcs].
    rewrite dict_set_new.
    + rewrite IH; [now rewrite <- app_assoc|exact Hcs|].
      apply Forall_app. split.
      * eapply Forall_impl; [|exact Hd]. intros e He. now inversion He.
      * constructor; [|constructor]. simpl.
        now apply Forall_map in Hc.
    + eapply Forall_impl; [|exact Hd]. intros e He. now inversion He.
Qed.

(** X8: when no two charts of a run have equal student names,
    [student_summaries] lists the name and the summary of every chart, in
    the order of the charts. *)
Theorem distinct_students_summaries R df fmt charts sums :
  process_data_and_create_charts R df fmt = Ok (charts, sums) ->
  distinct_students charts ->
  sums = map (fun c => (student c, chart_summary c)) charts.
Proof.
  intros H Hd.
  destruct (String.eqb_spec (format fmt) "paired") as [Hf|Hf].
  - destruct (process_paired_Ok _ _ _ _ _ Hf H) as [outs [_ [Ec Es]]].
    rewrite Es, <- Ec. now rewrite summaries_of_distinct.
  - rewrite process_not_paired in H by assumption. now injection H as <- <-.
Qed.

(** Scenario A: Alice and Bob, two charts and their two summaries. *)
Lemma distinct_students_summaries_scenario_A :
  exists charts sums,
    process_data_and_create_charts quiet scenario_A scenario_A_format
    = Ok (charts, sums)
    /\ distinct_students charts
    /\ map fst sums = [word "Alice"; word "Bob"]
    /\ sums = map (fun c => (student c, chart_summary c)) charts.
Proof.
  eexists. eexists. split; [reflexivity|].
  assert (Hd : distinct_students
                 (charts_of (process_data_and_create_charts quiet scenario_A
                               scenario_A_format))).
  { simpl. repeat split; repeat constructor. }
  split; [exact Hd|]. split; [reflexivity|].
  exact (distinct_students_summaries quiet scenario_A scenario_A_format _ _ eq_refl Hd).
Defined.

(** X9: every chart of a run has at least one subject and at most as many
    as the mapping has pairs; its subjects are headers of subject columns
    of the mapping, in the order of the mapping; [num_subjects] is their
    number and the number of the scores, and [total_possible] is 100 times
    it. *)
Theorem chart_shape R df fmt charts sums c :
  process_data_and_create_charts R df fmt = Ok (charts, sums) ->
  In c charts ->
  1 <= num_subjects (chart_summary c) <= length (subject_percentage_pairs fmt)
  /\ num_subjects (chart_summary c) = length (subjects c)
  /\ num_subjects (chart_summary c) = length (scores c)
  /\ total_possible (chart_summary c) = 100 * num_subjects (chart_summary c)
  /\ exists keep,
      subjects c = map (fun p => fst (fst p)) (filter keep (subject_percentage_pairs fmt)).
Proof.
  intros H Hin.
  destruct (chart_from_row _ _ _ _ _ _ H Hin) as [row [_ [_ [He [Hne [Hs _]]]]]].
  pose proof (extract_lengths _ _ _ _ _ He) as Hlen.
  destruct (extract_pairs_filter _ _ _ _ _ He) as [Hsub _].
  rewrite Hs. unfold summarize. cbn [num_subjects total_possible].
  split; [split|].
  - destruct (subjects c); [congruence|simpl; lia].
  - rewrite Hsub, length_map. apply filter_length_le.
  - split; [reflexivity|]. split; [exact Hlen|]. split; [now rewrite Hlen|].
    now exists (both_present (columns df) row).
Qed.

(** Bob of scenario A has both subjects. *)
Lemma chart_shape_bob :
  exists c,
    charts_of (process_data_and_create_charts quiet scenario_A scenario_A_format)
    = [c; {| student := word "Bob";
             subjects := [Text "Chem"; Text "Bio"];
             scores := [70%float; 90%float];
             chart_summary :=
               summarize [Text "Chem"; Text "Bio"] [70%float; 90%float] |}]
    /\ 1 <= 2 <= length (subject_percentage_pairs scenario_A_format).
Proof.
  eexists. split; [reflexivity|].
  pose proof (chart_shape quiet scenario_A scenario_A_format _ _
                {| student := word "Bob";
                   subjects := [Text "Chem"; Text "Bio"];
                   scores := [70%float; 90%float];
                   chart_summary :=
                     summarize [Text "Chem"; Text "Bio"] [70%float; 90%float] |}
                eq_refl (or_intror (or_introl eq_refl))) as [Hn _].
  exact Hn.
Defined.

(* ------------------------------------------------------------------ *)
(** ** The exceptions of a run *)
(* ------------------------------------------------------------------ *)

(** An exception of one pair is a failed lookup of one of its two columns
    or the exception of [float()] on its percentage cell. *)
Lemma extract_pair_exception cols row acc pair e :
  extract_pair cols row acc pair = Raise e ->
  (exists col, (col = fst (fst pair) \/ col = snd (fst pair))
               /\ e = KeyError col /\ getitem cols row col = Raise e)
  \/ (both_present cols row pair = true
      /\ exists p, getitem cols row (snd (fst pair)) = Ok p
                   /\ float_of_cell p = Raise e).
Proof.
  destruct pair as [[subject_col percentage_col] flag].
  unfold extract_pair, both_present. simpl.
  destruct (getitem cols row subject_col) as [s|e1] eqn:Es; simpl.
  - destruct (notna s); [|discriminate].
    destruct (getitem cols row percentage_col) as [p|e2] eqn:Ep; simpl.
    + destruct (notna p); [|discriminate].
      destruct (float_of_cell p) as [x|e3] eqn:F; simpl; [discriminate|].
      intros [= <-]. right. split; [reflexivity|]. now exists p.
    + intros [= <-]. left. exists percentage_col.
      pose proof (getitem_raises _ _ _ _ Ep). subst. auto.
  - intros [= <-]. left. exists subject_col.
    pose proof (getitem_raises _ _ _ _ Es). subst. auto.
Qed.

Lemma extract_loop_exception cols row pairs e :
  forall acc,
    for_each (extract_pair cols row) pairs acc = Raise e ->
    exists pair,
      In pair pairs
      /\ ((exists col, (col = fst (fst pair) \/ col = snd (fst pair))
                       /\ e = KeyError col /\ getitem cols row col = Raise e)
          \/ (both_present cols row pair = true
              /\ exists p, getitem cols row (snd (fst pair)) = Ok p
                           /\ float_of_cell p = Raise e)).
Proof.
  induction pairs as [|pair pairs IH]; intros acc H; simpl in H; [discriminate|].
  destruct (extract_pair cols row acc pair) as [acc'|e'] eqn:E; simpl in H.
  - destruct (IH _ H) as [pair' [Hin Hp]]. exists pair'. simpl. auto.
  - injection H as ->. exists pair. split; [simpl; auto|].
    exact (extract_pair_exception _ _ _ _ _ E).
Qed.

Lemma In_mapped_columns (fmt : data_format) pair col :
  In pair (subject_percentage_pairs fmt) ->
  col = fst (fst pair) \/ col = snd (fst pair) ->
  In col (mapped_columns fmt).
Proof.
  intros Hin Hc. unfold mapped_columns. right.
  apply in_flat_map. exists pair. split; [exact Hin|].
  simpl. destruct Hc; subst; auto.
Qed.

(** X10: an exception of a run is the [KeyError] of a column of the
    mapping whose lookup fails in a row of the table, or the exception
    [float()] raises on a percentage cell that is not missing, beside a
    subject cell that is not missing, or the exception raised while the
    figure of a row's chart is drawn. *)
Theorem process_exceptions R df fmt e :
  process_data_and_create_charts R df fmt = Raise e ->
  (exists col row,
      In col (mapped_columns fmt) /\ In row (rows df)
      /\ e = KeyError col /\ getitem (columns df) row col = Raise e)
  \/ rejected_cell df fmt e
  \/ (exists row c,
         In row (rows df)
         /\ row_chart (columns df) fmt row = Ok (Some c)
         /\ draw R c = Raise e).
Proof.
  unfold process_data_and_create_charts.
  destruct (String.eqb (format fmt) "paired"); [|discriminate].
  intro H. destruct (rows_loop_raises _ _ _ _ _ _ H) as [row [Hrow Hd]].
  clear H.
  destruct (row_drawn_raises _ _ _ _ _ Hd) as [Hr|[c [Hc Hdraw]]];
    [|right; right; exists row, c; auto].
  unfold row_chart in Hr.
  destruct (getitem (columns df) row (student_col fmt)) as [name|e0] eqn:En;
    simpl in Hr.
  - destruct (for_each (extract_pair (columns df) row) (subject_percentage_pairs fmt)
                ([], [])) as [lists|e1] eqn:El; simpl in Hr; [discriminate|].
    injection Hr as ->.
    destruct (extract_loop_exception _ _ _ _ _ El)
      as [pair [Hpair [[col [Hc [He Hg]]]|[Hb [p [Hp Hf]]]]]].
    + left. exists col, row. split; [|auto].
      exact (In_mapped_columns fmt pair col Hpair Hc).
    + right. left. exists row, pair, p. auto.
  - injection Hr as ->. left. exists (student_col fmt), row.
    pose proof (getitem_raises _ _ _ _ En). subst.
    split; [left; reflexivity|auto].
Qed.

(** The text beside a present subject: the exception is that of
    [float()] on it. *)
Lemma process_exceptions_abc :
  process_data_and_create_charts quiet text_beside_present one_subject_format
  = Raise (ValueError "could not convert string to float: 'abc'")
  /\ ((exists col row,
          In col (mapped_columns one_subject_format)
          /\ In row (rows text_beside_present)
          /\ ValueError "could not convert string to float: 'abc'" = KeyError col
          /\ getitem (columns text_beside_present) row col
             = Raise (ValueError "could not convert string to float: 'abc'"))
      \/ rejected_cell text_beside_present one_subject_format
           (ValueError "could not convert string to float: 'abc'")
      \/ (exists row c,
             In row (rows text_beside_present)
             /\ row_chart (columns text_beside_present) one_subject_format row
                = Ok (Some c)
             /\ draw quiet c
                = Raise (ValueError "could not convert string to float: 'abc'"))).
Proof.
  split; [reflexivity|].
  apply (process_exceptions quiet text_beside_present one_subject_format).
  reflexivity.
Defined.

(** X11: when the student column of the mapping is not a column of the
    table and the table has a row, the run raises the [KeyError] of that
    column, whatever the rows hold. *)
Theorem missing_student_column R df fmt :
  format fmt = "paired" ->
  rows df <> [] ->
  ~ In (student_col fmt) (columns df) ->
  process_data_and_create_charts R df fmt = Raise (KeyError (student_col fmt)).
Proof.
  intros Hf Hrows Hin.
  unfold process_data_and_create_charts. rewrite Hf, String.eqb_refl.
  destruct (rows df) as [|row rows]; [congruence|].
  cbn [for_each]. rewrite process_row_drawn. unfold row_drawn, row_chart.
  now rewrite (getitem_not_In _ row _ Hin).
Qed.

(** A mapping with a student column the table does not have. *)
Lemma missing_student_column_name :
  (format (paired (Text "Name") [(Text "Maths", Text "Percentage", true)]) = "paired"
   /\ rows seven_percent <> [])
  /\ process_data_and_create_charts quiet seven_percent
       (paired (Text "Name") [(Text "Maths", Text "Percentage", true)])
     = Raise (KeyError (Text "Name")).
Proof.
  split; [split; [reflexivity|discriminate]|].
  apply (missing_student_column quiet seven_percent
           (paired (Text "Name") [(Text "Maths", Text "Percentage", true)]));
    [reflexivity|discriminate|].
  simpl. intros [H|[H|[H|[]]]]; discriminate.
Defined.

(** X12: on the mapping that [validate_data] returns, and rows with a cell
    for every column, the run returns its charts exactly when the table
    has no rejected cell and the figure of every row's chart is drawn: no
    [KeyError] is possible. *)
Theorem detected_run_returns_iff R df errors fmt :
  validate_data df = Ok (errors, Some fmt) ->
  Forall (fun row => length (columns df) <= length row) (rows df) ->
  (exists charts sums,
      process_data_and_create_charts R df fmt = Ok (charts, sums))
  <-> ((forall e, ~ rejected_cell df fmt e)
       /\ forall row c,
           In row (rows df) -> row_chart (columns df) fmt row = Ok (Some c) ->
           draw R c = Ok tt).
Proof.
  intros Hv Hwidth.
  destruct (validate_data_Some _ _ _ Hv) as [_ [Hf [Hvalid _]]].
  split.
  - intros [charts [sums HOk]]. split.
    + intros e [row [pair [p [Hrow [Hpair [Hb [Hp He]]]]]]].
      destruct (row_chart_rejected _ _ _ _ _ _ Hpair Hb Hp He) as [e0 Hr].
      assert (Hd : row_drawn R (columns df) fmt row = Raise e0)
        by (unfold row_drawn; now rewrite Hr).
      destruct (rows_loop_rejected _ _ _ _ _ _ Hrow Hd ([], [])) as [e' Hloop].
      unfold process_data_and_create_charts in HOk.
      rewrite Hf, String.eqb_refl in HOk. congruence.
    + intros row c Hrow Hc.
      destruct (process_paired_Ok _ _ _ _ _ Hf HOk) as [outs [HF _]].
      destruct (Forall2_In_l _ _ _ _ HF Hrow) as [o [_ Hd]].
      apply row_drawn_Ok in Hd. destruct Hd as [Hc' Hdraw].
      apply Hdraw. congruence.
  - intros [Hnone Hall].
    destruct (process_data_and_create_charts R df fmt) as [[charts sums]|e] eqn:E;
      [eauto|exfalso].
    unfold process_data_and_create_charts in E.
    rewrite Hf, String.eqb_refl in E.
    destruct (rows_loop_raises _ _ _ _ _ _ E) as [row [Hrow Hd]].
    destruct (row_drawn_raises _ _ _ _ _ Hd) as [Hr|[c [Hc Hdraw]]].
    + assert (Hlen : length (columns df) <= length row).
      { rewrite Forall_forall in Hwidth. now apply Hwidth. }
      destruct (row_chart_raises _ _ _ _ Hlen Hvalid Hr)
        as [pair [p [Hpair [Hb [Hp Hfl]]]]].
      apply (Hnone e). exists row, pair, p. auto.
    + rewrite (Hall row c Hrow Hc) in Hdraw. discriminate.
Qed.

(** Scenario A has no rejected cell, and the renderer of the examples
    draws every chart. *)
Lemma detected_run_returns_scenario_A :
  (validate_data scenario_A = Ok ([], Some scenario_A_format)
   /\ Forall (fun row => length (columns scenario_A) <= length row) (rows scenario_A))
  /\ ((exists charts sums,
          process_data_and_create_charts quiet scenario_A scenario_A_format
          = Ok (charts, sums))
      <-> ((forall e, ~ rejected_cell scenario_A scenario_A_format e)
           /\ forall row c,
               In row (rows scenario_A) ->
               row_chart (columns scenario_A) scenario_A_format row = Ok (Some c) ->
               draw quiet c = Ok tt)).
Proof.
  assert (Hw : Forall (fun row => length (columns scenario_A) <= length row)
                 (rows scenario_A)) by (for_all ltac:(simpl; lia)).
  split; [split; [reflexivity|exact Hw]|].
  exact (detected_run_returns_iff quiet scenario_A [] scenario_A_format eq_refl Hw).
Defined.

(** With a renderer that cannot draw Bob's chart, the run on scenario A
    does not return, although no cell is rejected. *)
Example undrawn_chart_no_return :
  process_data_and_create_charts
    (stumbling "Bob" (ValueError "ParseFatalException"))
    scenario_A scenario_A_format
  = Raise (ValueError "ParseFatalException").
Proof. reflexivity. Qed.

Lemma rows_all_skipped R cols fmt rows :
  Forall (fun row => row_chart cols fmt row = Ok None) rows ->
  forall state, for_each (process_row R cols fmt) rows state = Ok state.
Proof.
  induction 1 as [|row rows Hrow _ IH]; intro state; simpl; [reflexivity|].
  rewrite process_row_drawn, (row_drawn_skipped R _ _ _ Hrow). simpl. apply IH.
Qed.

(** X13: when, on the mapping that [validate_data] returns, every pair of
    every row has a missing cell, the run returns no chart and no summary,
    and the script reports that no chart could be generated. *)
Theorem nothing_present_no_charts R df errors fmt manual :
  validate_data df = Ok (errors, Some fmt) ->
  Forall (fun row =>
            length (columns df) <= length row
            /\ Forall (fun pair =>
                         is_missing (columns df) row (fst (fst pair)) = true
                         \/ is_missing (columns df) row (snd (fst pair)) = true)
                 (subject_percentage_pairs fmt))
    (rows df) ->
  process_data_and_create_charts R df fmt = Ok ([], [])
  /\ main R df manual = ([], NoCharts).
Proof.
  intros Hv Hrows.
  destruct (validate_data_Some _ _ _ Hv) as [-> [Hf [Hvalid _]]].
  assert (Hrun : process_data_and_create_charts R df fmt = Ok ([], [])).
  { unfold process_data_and_create_charts. rewrite Hf, String.eqb_refl.
    apply rows_all_skipped.
    eapply Forall_impl; [|exact Hrows]. intros row [Hlen Hmiss].
    now apply row_all_missing. }
  split; [exact Hrun|].
  unfold main. rewrite Hv. cbn. now rewrite Hrun.
Qed.

(** Scenario C: two rows without any complete pair. *)
Lemma nothing_present_no_charts_carl :
  validate_data {| columns := scenario_A_columns; rows := [carl; carl] |}
  = Ok ([], Some scenario_A_format)
  /\ process_data_and_create_charts quiet
       {| columns := scenario_A_columns; rows := [carl; carl] |} scenario_A_format
     = Ok ([], [])
  /\ main quiet {| columns := scenario_A_columns; rows := [carl; carl] |} (Ok None)
     = ([], NoCharts).
Proof.
  split; [reflexivity|].
  apply (nothing_present_no_charts quiet
           {| columns := scenario_A_columns; rows := [carl; carl] |}
           [] scenario_A_format (Ok None) eq_refl).
  for_all ltac:(split;
                [simpl; lia
                |for_all ltac:(first [left; reflexivity | right; reflexivity])]).
Defined.

(* ------------------------------------------------------------------ *)
(** ** Lookups by label and positions *)
(* ------------------------------------------------------------------ *)

Lemma getitem_nth (cols : list label) :
  forall (row : list cell) (i : nat),
    NoDup cols -> i < length cols -> length cols <= length row ->
    getitem cols row (nth i cols (Text "")) = Ok (nth i row NA).
Proof.
  induction cols as [|c cols IH]; intros row i Hnd Hi Hlen; [simpl in Hi; lia|].
  destruct row as [|v row]; [simpl in Hlen; lia|].
  inversion Hnd as [|? ? Hc Hnd']; subst.
  destruct i as [|i]; simpl.
  - now rewrite label_eqb_refl.
  - destruct (label_eqb_spec c (nth i cols (Text ""))) as [E|_].
    + exfalso. apply Hc. rewrite E. apply nth_In. simpl in Hi. lia.
    + apply IH; [exact Hnd'|simpl in Hi; lia|simpl in Hlen; lia].
Qed.

Lemma nth_map_seq {A} (f : nat -> A) (n k : nat) (d : A) :
  k < n -> nth k (map f (seq 0 n)) d = f k.
Proof.
  intro Hk. rewrite (nth_indep _ d (f 0)) by (now rewrite length_map, length_seq).
  rewrite map_nth, seq_nth by exact Hk. reflexivity.
Qed.

(** X14: on a table with distinct labels and the mapping that
    [validate_data] returns, the lookups by label of the run read the row
    by position: the student name is cell 0, and pair [k] reads its subject
    in cell [2k+1] and its percentage in cell [2k+2]. *)
Theorem detected_pairs_read_positions df errors fmt row k :
  validate_data df = Ok (errors, Some fmt) ->
  NoDup (columns df) ->
  length (columns df) <= length row ->
  k < length (subject_percentage_pairs fmt) ->
  let pair := nth k (subject_percentage_pairs fmt) (Text "", Text "", false) in
  getitem (columns df) row (student_col fmt) = Ok (nth 0 row NA)
  /\ getitem (columns df) row (fst (fst pair)) = Ok (nth (1 + 2 * k) row NA)
  /\ getitem (columns df) row (snd (fst pair)) = Ok (nth (2 + 2 * k) row NA).
Proof.
  intros Hv Hnd Hlen Hk pair. subst pair.
  destruct (validate_data_Some _ _ _ Hv) as [_ [_ [_ [Hc ->]]]].
  cbn [student_col subject_percentage_pairs paired] in *.
  destruct (columns df) as [|c0 trailing] eqn:Ecols; [simpl in Hc; lia|].
  cbn [tl] in *.
  set (n := length trailing / 2).
  assert (Hn : length trailing = 2 * n \/ length trailing = 2 * n + 1).
  { pose proof (Nat.div_mod_eq (length trailing) 2) as Hd.
    pose proof (Nat.mod_upper_bound (length trailing) 2 ltac:(lia)) as Hm.
    subst n. lia. }
  rewrite (pair_up_seq trailing c0 n Hn) in *.
  rewrite length_map, length_seq in Hk.
  rewrite (nth_map_seq (pair_at (c0 :: trailing)) n k _ Hk).
  unfold pair_at. cbn [fst snd].
  assert (Hlen' : S (length trailing) <= length row) by exact Hlen.
  split; [|split].
  - apply (getitem_nth (c0 :: trailing) row 0 Hnd); simpl; lia.
  - apply (getitem_nth (c0 :: trailing) row (1 + 2 * k) Hnd); simpl; lia.
  - apply (getitem_nth (c0 :: trailing) row (2 + 2 * k) Hnd); simpl; lia.
Qed.

(** Bob's biology pair is read in cells 3 and 4. *)
Lemma detected_pairs_read_positions_bob :
  (validate_data scenario_A = Ok ([], Some scenario_A_format)
   /\ NoDup (columns scenario_A))
  /\ let pair := nth 1 (subject_percentage_pairs scenario_A_format)
                   (Text "", Text "", false) in
     getitem (columns scenario_A) bob (student_col scenario_A_format)
     = Ok (nth 0 bob NA)
     /\ getitem (columns scenario_A) bob (fst (fst pair)) = Ok (nth (1 + 2 * 1) bob NA)
     /\ getitem (columns scenario_A) bob (snd (fst pair)) = Ok (nth (2 + 2 * 1) bob NA).
Proof.
  assert (Hnd : NoDup (columns scenario_A)).
  { repeat (apply NoDup_cons;
            [simpl; intro H; repeat (destruct H as [H|H]; [discriminate H|]); exact H|]).
    apply NoDup_nil. }
  split; [split; [reflexivity|exact Hnd]|].
  apply (detected_pairs_read_positions scenario_A [] scenario_A_format bob 1 eq_refl Hnd);
    simpl; lia.
Defined.

(* ------------------------------------------------------------------ *)
(** ** File names of the downloads *)
(* ------------------------------------------------------------------ *)

Lemma string_length_append (s t : string) :
  String.length (s ++ t) = String.length s + String.length t.
Proof.
  induction s as [|c s IH]; simpl; [reflexivity|]. now rewrite IH.
Qed.

Lemma string_app_inv_tail (s1 s2 t : string) :
  (s1 ++ t = s2 ++ t)%string -> s1 = s2.
Proof.
  revert s2. induction s1 as [|c s1 IH]; intros [|c' s2] H; simpl in H.
  - reflexivity.
  - apply (f_equal String.length) in H. simpl in H.
    rewrite string_length_append in H. lia.
  - apply (f_equal String.length) in H. simpl in H.
    rewrite string_length_append in H. lia.
  - injection H as -> H. f_equal. now apply IH.
Qed.

Lemma replace_spaces_idempotent (s : string) :
  replace_spaces (replace_spaces s) = replace_spaces s.
Proof.
  induction s as [|c s IH]; simpl; [reflexivity|]. rewrite IH.
  destruct (Ascii.eqb c " ") eqn:E; [reflexivity|now rewrite E].
Qed.

Lemma replace_spaces_no_space (s : string) :
  ~ In " "%char (list_ascii_of_string (replace_spaces s)).
Proof.
  induction s as [|c s IH]; simpl; [tauto|].
  intros [H|H]; [|tauto].
  destruct (Ascii.eqb_spec c " ") as [E|E]; [discriminate H|congruence].
Qed.

(** X15: two students with text names get the same file name for their
    chart exactly when their names are equal once every space is replaced
    by an underscore; so a name with spaces and the same name written with
    underscores share one file name.  The part of the file name that comes
    from the student's name holds no space. *)
Theorem chart_file_name_collisions (s1 s2 : string) (o1 o2 : string + float)
    (extension : string) :
  (chart_file_name (Str s1 o1) extension = chart_file_name (Str s2 o2) extension
   <-> replace_spaces s1 = replace_spaces s2)
  /\ chart_file_name (Str (replace_spaces s1) o2) extension
     = chart_file_name (Str s1 o1) extension
  /\ ~ In " "%char (list_ascii_of_string (replace_spaces s1)).
Proof.
  split; [|split].
  - simpl. split.
    + intros [= H]. now apply string_app_inv_tail in H.
    + now intros ->.
  - simpl. now rewrite replace_spaces_idempotent.
  - apply replace_spaces_no_space.
Qed.

Lemma zip_entry_names_Some (charts : list chart) :
  forall names,
    zip_entry_names charts = Some names ->
    Forall2 (fun c name => chart_file_name (student c) "png" = Some name)
      charts names.
Proof.
  induction charts as [|c charts IH]; intros names H; simpl in H.
  - injection H as <-. constructor.
  - destruct (chart_file_name (student c) "png") as [name|] eqn:E; [|discriminate].
    destruct (zip_entry_names charts) as [rest|]; [|discriminate].
    injection H as <-. constructor; [exact E|now apply IH].
Qed.

Lemma chart_file_name_None (name : cell) (extension : string) :
  chart_file_name name extension = None <-> forall s o, name <> Str s o.
Proof.
  destruct name as [|x|s o]; simpl; split; try discriminate; try reflexivity.
  intro H. now destruct (H s o).
Qed.

Lemma zip_entry_names_None (charts : list chart) :
  zip_entry_names charts = None
  <-> exists c, In c charts /\ forall s o, student c <> Str s o.
Proof.
  induction charts as [|c charts IH]; simpl.
  - split; [discriminate|]. now intros [c [[] _]].
  - destruct (chart_file_name (student c) "png") as [name|] eqn:E.
    + destruct (zip_entry_names charts) as [rest|]; simpl.
      * split; [discriminate|]. intros [c' [[<-|Hin] Hc']].
        -- pose proof (proj2 (chart_file_name_None (student c) "png") Hc').
           congruence.
        -- destruct IH as [_ IH]. discriminate IH. eauto.
      * split; [|reflexivity]. intros _.
        destruct IH as [IH _]. destruct (IH eq_refl) as [c' [Hin Hc']].
        exists c'. auto.
    + split; [|reflexivity]. intros _. exists c. split; [auto|].
      exact (proj1 (chart_file_name_None (student c) "png") E).
Qed.

(** X16: the archive gets one entry per chart, in the order of the charts,
    named after the student, also when two charts have the same name; and
    writing the archive raises exactly when the student name of some chart
    is not a text. *)
Theorem zip_entry_names_charts (charts : list chart) :
  (forall names,
      zip_entry_names charts = Some names ->
      length names = length charts
      /\ Forall2 (fun c name => chart_file_name (student c) "png" = Some name)
           charts names)
  /\ (zip_entry_names charts = None
      <-> exists c, In c charts /\ forall s o, student c <> Str s o).
Proof.
  split; [|apply zip_entry_names_None].
  intros names H. apply zip_entry_names_Some in H.
  split; [symmetry; now apply Forall2_length in H|exact H].
Qed.

Lemma row_chart_present cols fmt row name pair o :
  row_chart cols fmt row = Ok o ->
  getitem cols row (student_col fmt) = Ok name ->
  In pair (subject_percentage_pairs fmt) ->
  both_present cols row pair = true ->
  exists c, o = Some c /\ student c = name.
Proof.
  intros Hr Hn Hpair Hb. apply row_chart_Ok in Hr.
  destruct Hr as [name' [labels [values [Hn' [He ->]]]]].
  assert (name' = name) by congruence. subst name'.
  destruct (extract_pairs_filter _ _ _ _ _ He) as [Hs _].
  destruct labels as [|l labels]; [|eexists; split; reflexivity].
  exfalso. symmetry in Hs. apply map_eq_nil in Hs.
  assert (Hin : In pair (filter (both_present cols row) (subject_percentage_pairs fmt)))
    by (apply filter_In; auto).
  rewrite Hs in Hin. destruct Hin.
Qed.

(** X17: when a row that is not skipped has a student name that is not a
    text (a number, a missing value), a run that returns does return
    charts, and writing the archive of these charts raises: the name has
    no method [replace]; so once the PDF link is made the script fails
    with that [AttributeError]. *)
Theorem non_text_student_breaks_archive R df fmt charts sums row name pair :
  format fmt = "paired" ->
  process_data_and_create_charts R df fmt = Ok (charts, sums) ->
  In row (rows df) ->
  getitem (columns df) row (student_col fmt) = Ok name ->
  (forall s o, name <> Str s o) ->
  In pair (subject_percentage_pairs fmt) ->
  both_present (columns df) row pair = true ->
  charts <> [] /\ zip_entry_names charts = None
  /\ (pdf_link R charts = Ok tt ->
      publish R charts sums = Failed (AttributeError "replace")).
Proof.
  intros Hf H Hrow Hn Hname Hpair Hb.
  destruct (process_paired_Ok _ _ _ _ _ Hf H) as [outs [HF [-> _]]].
  destruct (Forall2_In_l _ _ _ _ HF Hrow) as [o [Ho Hd]].
  apply row_drawn_Ok in Hd. destruct Hd as [Hr _].
  destruct (row_chart_present _ _ _ _ _ _ Hr Hn Hpair Hb) as [c [-> Hc]].
  apply in_somes in Ho.
  assert (Hzip : zip_entry_names (somes outs) = None).
  { apply (proj2 (zip_entry_names_None (somes outs))).
    exists c. split; [exact Ho|]. now rewrite Hc. }
  split; [intro E; rewrite E in Ho; destruct Ho|].
  split; [exact Hzip|].
  intro Hpdf. unfold publish. now rewrite Hpdf, Hzip.
Qed.

(** Student numbers instead of names: two charts, no archive. *)
Lemma non_text_student_numbers :
  exists charts sums,
    process_data_and_create_charts quiet numbered_students one_subject_format
    = Ok (charts, sums)
    /\ length charts = 2
    /\ charts <> [] /\ zip_entry_names charts = None
    /\ (pdf_link quiet charts = Ok tt ->
        publish quiet charts sums = Failed (AttributeError "replace")).
Proof.
  eexists. eexists. split; [reflexivity|]. split; [reflexivity|].
  apply (non_text_student_breaks_archive quiet numbered_students one_subject_format
           _ _ [Num 1001; Num 1; Num 50] (Num 1001)
           (Text "Maths", Text "Percentage", true)
           eq_refl eq_refl).
  - in_list.
  - reflexivity.
  - discriminate.
  - in_list.
  - reflexivity.
Defined.

(* ------------------------------------------------------------------ *)
(** ** The bars of a chart *)
(* ------------------------------------------------------------------ *)

(** X18: for every chart of a run, the labels, the heights and the colours
    passed to [ax.bar] are lists of the same length, the number of the
    subjects plus one when the average is shown as a bar; that bar is the
    last one, has the height of the average, the label of "Average" and
    the dark colour, and the bars before it are the subjects' bars. *)
Theorem bars_consistent R (wrap : label -> string) (show_average_bar : bool)
    df fmt charts sums c :
  process_data_and_create_charts R df fmt = Ok (charts, sums) ->
  In c charts ->
  let b := bars wrap show_average_bar c in
  let n := num_subjects (chart_summary c) + (if show_average_bar then 1 else 0) in
  length (bar_labels b) = n
  /\ length (bar_heights b) = n
  /\ length (bar_color b) = n
  /\ firstn (length (scores c)) (bar_heights b) = scores c
  /\ firstn (length (subjects c)) (bar_color b)
     = repeat "#7792E3" (length (subjects c))
  /\ (show_average_bar = true ->
      last (bar_labels b) "" = wrap (Text "Average")
      /\ last (bar_heights b) 0%float = average (chart_summary c)
      /\ last (bar_color b) "" = "#004080").
Proof.
  intros H Hin b n. subst b n.
  destruct (chart_from_row _ _ _ _ _ _ H Hin) as [row [_ [_ [He [_ [Hs _]]]]]].
  pose proof (extract_lengths _ _ _ _ _ He) as Hlen.
  assert (Hnum : num_subjects (chart_summary c) = length (subjects c))
    by (now rewrite Hs).
  rewrite Hnum. unfold bars. cbn [bar_labels bar_heights bar_color].
  unfold display_subjects, display_scores, bar_colors.
  assert (Hfirst : forall (A : Type) (l t : list A), firstn (length l) (l ++ t) = l).
  { intros A l t. now rewrite firstn_app, Nat.sub_diag, firstn_all, app_nil_r. }
  destruct show_average_bar.
  - rewrite length_map, !length_app, !repeat_length. simpl length.
    split; [reflexivity|]. split; [now rewrite Hlen|]. split; [reflexivity|].
    split; [apply Hfirst|]. split.
    + rewrite <- (repeat_length "#7792E3" (length (subjects c))) at 1.
      apply Hfirst.
    + intros _. rewrite map_app. simpl. now rewrite !last_last.
  - rewrite length_map, !length_app, !repeat_length. simpl.
    rewrite !Nat.add_0_r, !app_nil_r.
    split; [reflexivity|]. split; [now rewrite Hlen|]. split; [reflexivity|].
    split; [apply firstn_all|]. split; [|discriminate].
    rewrite <- (repeat_length "#7792E3" (length (subjects c))) at 1.
    apply firstn_all.
Qed.

(** Bob of scenario A with the average shown as a bar: three bars. *)
Lemma bars_consistent_bob :
  In {| student := word "Bob";
        subjects := [Text "Chem"; Text "Bio"];
        scores := [70%float; 90%float];
        chart_summary := summarize [Text "Chem"; Text "Bio"] [70%float; 90%float] |}
    (charts_of (process_data_and_create_charts quiet scenario_A scenario_A_format))
  /\ bar_heights
       (bars short_label true
          {| student := word "Bob";
             subjects := [Text "Chem"; Text "Bio"];
             scores := [70%float; 90%float];
             chart_summary := summarize [Text "Chem"; Text "Bio"] [70%float; 90%float] |})
     = [70%float; 90%float; 80%float]
  /\ length
       (bar_labels
          (bars short_label true
             {| student := word "Bob";
                subjects := [Text "Chem"; Text "Bio"];
                scores := [70%float; 90%float];
                chart_summary := summarize [Text "Chem"; Text "Bio"] [70%float; 90%float] |}))
     = 3.
Proof.
  assert (Hin : In {| student := word "Bob";
                      subjects := [Text "Chem"; Text "Bio"];
                      scores := [70%float; 90%float];
                      chart_summary := summarize [Text "Chem"; Text "Bio"] [70%float; 90%float] |}
                  (charts_of (process_data_and_create_charts quiet scenario_A scenario_A_format)))
    by (right; left; reflexivity).
  split; [exact Hin|]. split; [reflexivity|].
  exact (proj1 (bars_consistent quiet short_label true scenario_A scenario_A_format
                  _ _ _ eq_refl Hin)).
Defined.


(* ------------------------------------------------------------------ *)
(** ** The outcomes of the script *)
(* ------------------------------------------------------------------ *)

Lemma chart_file_name_text (name : cell) (extension file : string) :
  chart_file_name name extension = Some file -> exists s o, name = Str s o.
Proof.
  destruct name as [|x|s o]; simpl; try discriminate. eauto.
Qed.

(** X19: when the script shows the charts, the run on the detected mapping
    (or, after a message of the detector, on the mapping selected by hand)
    returned them; there is at least one chart; the PDF link, the archive
    and the page were made without an exception; and the student name of
    every chart is a text. *)
Theorem main_generated R df manual errors charts sums :
  main R df manual = (errors, Generated charts sums) ->
  charts <> []
  /\ (forall c, In c charts -> exists s o, student c = Str s o)
  /\ pdf_link R charts = Ok tt
  /\ display R charts = Ok tt
  /\ exists fmt,
      process_data_and_create_charts R df fmt = Ok (charts, sums)
      /\ (validate_data df = Ok (errors, Some fmt)
          \/ (validate_data df = Ok (errors, None) /\ errors <> []
              /\ manual = Ok (Some fmt))).
Proof.
  unfold main. intro H.
  destruct (validate_data df) as [[errs detected]|e0]; [|discriminate].
  injection H as <- H.
  assert (Hchosen : forall fmt,
             match errs, detected with
             | _ :: _, None => manual
             | _, _ => Ok detected
             end = Ok (Some fmt) ->
             Ok (errs, detected) = Ok (errs, Some fmt)
             \/ (Ok (errs, detected) = Ok (errs, @None data_format) /\ errs <> []
                 /\ manual = Ok (Some fmt))).
  { intros fmt Hc. destruct errs as [|message errs], detected as [f|];
      try (injection Hc as ->; now left); try discriminate.
    right. split; [reflexivity|]. split; [discriminate|exact Hc]. }
  destruct (match errs, detected with
            | _ :: _, None => manual
            | _, _ => Ok detected
            end) as [[fmt|]|e1]; try discriminate.
  specialize (Hchosen fmt eq_refl).
  destruct (process_data_and_create_charts R df fmt) as [[cs ss]|e2] eqn:Hrun;
    [|discriminate].
  destruct cs as [|c cs]; [discriminate|].
  unfold publish in H.
  destruct (pdf_link R (c :: cs)) as [[]|e3] eqn:Hpdf; [|discriminate].
  destruct (zip_entry_names (c :: cs)) as [names|] eqn:Hzip; [|discriminate].
  destruct (display R (c :: cs)) as [[]|e4] eqn:Hpage; [|discriminate].
  injection H as <- <-.
  split; [discriminate|]. split; [|split; [exact Hpdf|split; [exact Hpage|]]].
  - intros c' Hin. apply zip_entry_names_Some in Hzip.
    destruct (Forall2_In_l _ _ _ _ Hzip Hin) as [file [_ Hfile]].
    exact (chart_file_name_text _ _ _ Hfile).
  - exists fmt. split; [exact Hrun|exact Hchosen].
Qed.

(** Scenario A: the charts of Alice and Bob are shown. *)
Lemma main_generated_scenario_A :
  exists charts sums,
    main quiet scenario_A (Ok None) = ([], Generated charts sums)
    /\ map student charts = [word "Alice"; word "Bob"]
    /\ charts <> []
    /\ (forall c, In c charts -> exists s o, student c = Str s o)
    /\ pdf_link quiet charts = Ok tt
    /\ display quiet charts = Ok tt
    /\ exists fmt,
        process_data_and_create_charts quiet scenario_A fmt = Ok (charts, sums)
        /\ (validate_data scenario_A = Ok ([], Some fmt)
            \/ (validate_data scenario_A = Ok ([], None) /\ @nil string <> []
                /\ Ok None = Ok (Some fmt))).
Proof.
  eexists. eexists. split; [reflexivity|]. split; [reflexivity|].
  apply (main_generated quiet scenario_A (Ok None) [] _ _ eq_refl).
Defined.

(** X20: on a table with a row, at least three columns and a percentage
    header that is not a text, the script shows no issue of the detector
    and no chart: the [AttributeError] of line 75 reaches the handler of
    line 421, whatever the cells hold and whatever would be selected by
    hand. *)
Theorem main_header_not_text R df manual :
  rows df <> [] ->
  3 <= length (columns df) ->
  forallb is_text (percentage_headers (tl (columns df))) = false ->
  main R df manual = ([], Failed (AttributeError "lower")).
Proof.
  intros Hrows Hcols Htext. unfold main.
  destruct (validate_data_cases df)
    as [[E _]|[[_ [Hc _]]|[[_ [_ [T _]]]|[_ [_ [_ Hv]]]]]].
  - assert (empty df = false); [|congruence].
    apply empty_false. split; [exact Hrows|].
    destruct (columns df); [simpl in Hcols; lia|discriminate].
  - lia.
  - congruence.
  - now rewrite Hv.
Qed.

(** The workbook with the years as headers. *)
Lemma main_header_not_text_years :
  rows year_headers <> []
  /\ main quiet year_headers (Ok None) = ([], Failed (AttributeError "lower")).
Proof.
  split; [discriminate|].
  apply (main_header_not_text quiet year_headers (Ok None));
    [discriminate | simpl; lia | reflexivity].
Defined.
